(** * Chess-puzzle example construction: a shallow embedding

    The samplers of [src/samplers/base.py] and [src/samplers/random.py]
    turn puzzle rows into model-ready examples.  The chess rules come from
    the [chess] package, the row selection from pandas and numpy: both are
    libraries outside the repository and enter the development as
    interfaces ([PositionEngine], [Sampling]).  Exceptions are explicit
    ([result]); the board that Python mutates in place is threaded
    through the replay loop. *)

From Stdlib Require Import List String Ascii Bool Arith ZArith QArith Lia.
From Stdlib Require Import DecimalString DecimalNat Permutation.
Import ListNotations.
Local Close Scope Q_scope.
Local Open Scope nat_scope.
Local Open Scope string_scope.
Local Open Scope list_scope.

Set Implicit Arguments.

(** ** Exceptions *)

Inductive exn : Type :=
| ValueError
| KeyError (key : string)
| IndexError.

Inductive result (A : Type) : Type :=
| Ok (a : A)
| Raise (e : exn).

Arguments Ok {A} a.
Arguments Raise {A} e.

Definition bind {A B : Type} (r : result A) (k : A -> result B) : result B :=
  match r with
  | Ok a => k a
  | Raise e => Raise e
  end.

Notation "x <- r ;; k" := (bind r (fun x => k))
  (at level 61, r at next level, right associativity).

(** ** Python's [str.split()] and [str(i)] *)

(** Characters on which [str.split()] without argument cuts, for code
    points below 256. *)
Definition is_space (c : ascii) : bool :=
  let n := nat_of_ascii c in
  (Nat.leb 9 n && Nat.leb n 13) || (Nat.leb 28 n && Nat.leb n 32)
  || Nat.eqb n 133 || Nat.eqb n 160.

Definition flush (word : string) (k : list string) : list string :=
  match word with
  | EmptyString => k
  | _ => word :: k
  end.

Fixpoint split_from (word s : string) : list string :=
  match s with
  | EmptyString => flush word []
  | String c s' =>
      if is_space c then flush word (split_from "" s')
      else split_from (append word (String c "")) s'
  end.

Definition split (s : string) : list string := split_from "" s.

Definition str (i : nat) : string := NilEmpty.string_of_uint (Nat.to_uint i).

(** [enumerate] *)
Fixpoint enumerate_from {A : Type} (i : nat) (l : list A) : list (nat * A) :=
  match l with
  | [] => []
  | x :: l' => (i, x) :: enumerate_from (S i) l'
  end.

Definition enumerate {A : Type} (l : list A) : list (nat * A) :=
  enumerate_from 0 l.

(** ** Data *)

(** A key of a Python dict: the two builders use different key types. *)
Inductive key : Type :=
| KInt (i : nat)
| KStr (s : string).

(** One row of the puzzle frame, with the columns either sampler reads. *)
Record Row : Type := mkRow {
  PuzzleId : string;
  FEN : string;
  Moves : string;
  Rating : Z;
  RatingDeviation : Z;
  Popularity : Z;
  Themes : string;
  puzzle_fen : string;
  row_expected_move : string;
  row_opponent_move : string
}.

(** The metadata dict; a key a builder does not set is [None]. *)
Record Metadata : Type := mkMetadata {
  rating : Z;
  popularity : Z;
  rating_deviation : Z;
  themes : string;
  moves : option (list string);
  initial_fen : string;
  opponent_move : option string;
  control_group : option string
}.

(** [dspy.Example]; [move_index] is set by the multi-ply builder only.
    [possible_moves] is the dict in insertion order. *)
Record Example : Type := mkExample {
  puzzle : string;
  possible_moves : list (key * string);
  expected_move : string;
  puzzle_id : string;
  metadata : Metadata;
  move_index : option nat
}.

(** ** The position engine ([chess.Board]) *)

Class PositionEngine : Type := {
  Board : Type;
  Move : Type;
  (** [chess.Board(fen)]; [None] when the constructor raises *)
  chess_Board : string -> option Board;
  fen : Board -> string;
  legal_moves : Board -> list Move;
  uci : Move -> string;
  (** [board.push_uci(s)]; [None] when it raises *)
  push_uci : Board -> string -> option Board
}.

Section Builder.

Context {E : PositionEngine}.

Definition legal_moves_uci (board : Board) : list string :=
  map uci (legal_moves board).

(** Python truthiness of the optional label in [if control_group:]. *)
Definition truthy_label (cg : option string) : option string :=
  match cg with
  | Some EmptyString => None
  | other => other
  end.

Definition puzzle_metadata (r : Row) (mvs : list string)
    (cg : option string) : Metadata :=
  {| rating := Rating r;
     popularity := Popularity r;
     rating_deviation := RatingDeviation r;
     themes := Themes r;
     moves := Some mvs;
     initial_fen := FEN r;
     opponent_move := None;
     control_group := truthy_label cg |}.

Definition ply_example (r : Row) (md : Metadata) (board : Board)
    (move_idx : nat) (expected : string) : Example :=
  {| puzzle := fen board;
     possible_moves :=
       map (fun im => (KInt (fst im), snd im))
           (enumerate (legal_moves_uci board));
     expected_move := expected;
     puzzle_id := PuzzleId r;
     metadata := md;
     move_index := Some move_idx |}.

(** The [for move_idx, expected_move in enumerate(moves)] loop; [n] is
    [len(moves)], [todo] the moves not yet visited. *)
Fixpoint replay (r : Row) (md : Metadata) (n : nat) (board : Board)
    (move_idx : nat) (todo : list string) : result (list Example) :=
  match todo with
  | [] => Ok []
  | expected :: todo' =>
      let example := ply_example r md board move_idx expected in
      board' <- (if Nat.ltb move_idx (n - 1) then
                   match push_uci board expected with
                   | Some b => Ok b
                   | None => Raise ValueError
                   end
                 else Ok board) ;;
      examples <- replay r md n board' (S move_idx) todo' ;;
      Ok (example :: examples)
  end.

Definition _create_dspy_example (r : Row) (cg : option string)
    : result (option (list Example)) :=
  let mvs := split (Moves r) in
  match mvs with
  | [] => Ok None
  | _ =>
      let md := puzzle_metadata r mvs cg in
      match chess_Board (FEN r) with
      | None => Raise ValueError
      | Some board =>
          examples <- replay r md (List.length mvs) board 0 mvs ;;
          Ok (Some examples)
      end
  end.

(** A frame row comes with its index label, which [iterrows] yields. *)
Definition DataFrame : Type := list (nat * Row).

(** [control_groups.iloc[idx] if control_groups is not None else None] *)
Definition label_at (control_groups : option (list string)) (idx : nat)
    : result (option string) :=
  match control_groups with
  | None => Ok None
  | Some labels =>
      match nth_error labels idx with
      | Some l => Ok (Some l)
      | None => Raise IndexError
      end
  end.

Fixpoint _create_examples_from_df (df : DataFrame)
    (control_groups : option (list string)) : result (list Example) :=
  match df with
  | [] => Ok []
  | (idx, r) :: df' =>
      cg <- label_at control_groups idx ;;
      puzzle_examples <- _create_dspy_example r cg ;;
      later <- _create_examples_from_df df' control_groups ;;
      Ok (match puzzle_examples with
          | Some (e :: es) => (e :: es) ++ later
          | _ => later
          end)
  end.

(** *** Predicates on a solution

    The loop applies every move but the last.  [replayable] says these
    applications succeed; [legal_in_sequence] says moreover that every
    move, the last included, is among the legal moves of the board of
    its ply. *)

Fixpoint replayable (board : Board) (mvs : list string) : Prop :=
  match mvs with
  | [] => True
  | m :: rest =>
      match rest with
      | [] => True
      | _ :: _ =>
          match push_uci board m with
          | Some board' => replayable board' rest
          | None => False
          end
      end
  end.

Fixpoint legal_in_sequence (board : Board) (mvs : list string) : Prop :=
  match mvs with
  | [] => True
  | m :: rest =>
      In m (legal_moves_uci board) /\
      match rest with
      | [] => True
      | _ :: _ =>
          match push_uci board m with
          | Some board' => legal_in_sequence board' rest
          | None => False
          end
      end
  end.

(** The examples carry the positions of a play from [board]: each
    position is the engine's rendering of the current board, and the
    next board is the current one after the example's expected move. *)
Inductive continuation : Board -> list Example -> Prop :=
| continuation_last (board : Board) (e : Example) :
    puzzle e = fen board ->
    continuation board [e]
| continuation_step (board board' : Board) (e : Example)
    (rest : list Example) :
    puzzle e = fen board ->
    push_uci board (expected_move e) = Some board' ->
    continuation board' rest ->
    continuation board (e :: rest).

End Builder.

(** ** Row selection ([DataFrame.sample]) *)

(** numpy's generator as pandas uses it: [np.random.RandomState(seed)]
    and [rs.permutation(n)]. *)
Class Sampling : Type := {
  RandomState : Type;
  seeded : Z -> RandomState;
  permutation : RandomState -> nat -> list nat
}.

Record BaseSampler : Type := mkSampler { random_state : Z }.

Section Sampler.

Context {E : PositionEngine} {G : Sampling}.

(** [BaseSampler.__init__]: stores the seed and reseeds numpy's global
    generator, the second component. *)
Definition BaseSampler_init (seed : Z) (np_global : RandomState)
    : BaseSampler * RandomState :=
  ({| random_state := seed |}, seeded seed).

(** The positions [df.sample(n=n, random_state=seed)] draws from a frame
    of [obj_len] rows.  pandas refuses a negative [n]; then
    [rs.choice(obj_len, size=n, replace=False)], on a generator made
    from the integer seed, refuses an [n] above [obj_len] and otherwise
    takes the first [n] entries of a permutation.  Both refusals are
    [ValueError]. *)
Definition sample_positions (obj_len : nat) (n : Z) (seed : Z)
    : result (list nat) :=
  if (n <? 0)%Z then Raise ValueError
  else if (Z.of_nat obj_len <? n)%Z then Raise ValueError
  else Ok (firstn (Z.to_nat n) (permutation (seeded seed) obj_len)).

(** [df.take(positions)] *)
Fixpoint take (df : DataFrame) (positions : list nat) : result DataFrame :=
  match positions with
  | [] => Ok []
  | p :: ps =>
      match nth_error df p with
      | None => Raise IndexError
      | Some row =>
          rows <- take df ps ;;
          Ok (row :: rows)
      end
  end.

Definition df_sample (df : DataFrame) (n : Z) (seed : Z) : result DataFrame :=
  positions <- sample_positions (List.length df) n seed ;;
  take df positions.

(** The body of the [try] in [create_sample]; [None] is a skipped row,
    by [continue] or by the [except] clause. *)
Definition row_example (row : Row) : option Example :=
  match chess_Board (puzzle_fen row) with
  | None => None
  | Some board =>
      let legal :=
        map (fun im => (KStr (str (fst im)), uci (snd im)))
            (enumerate (legal_moves board)) in
      match legal with
      | [] => None
      | _ =>
          Some {| puzzle := puzzle_fen row;
                  possible_moves := legal;
                  expected_move := row_expected_move row;
                  puzzle_id := PuzzleId row;
                  metadata :=
                    {| rating := Rating row;
                       popularity := Popularity row;
                       rating_deviation := RatingDeviation row;
                       themes := Themes row;
                       moves := None;
                       initial_fen := FEN row;
                       opponent_move := Some (row_opponent_move row);
                       control_group := None |};
                  move_index := None |}
      end
  end.

(** The [for _, row in sampled_df.iterrows()] loop. *)
Fixpoint examples_of_rows (sampled_df : DataFrame) : list Example :=
  match sampled_df with
  | [] => []
  | (_, row) :: rest =>
      match row_example row with
      | Some example => example :: examples_of_rows rest
      | None => examples_of_rows rest
      end
  end.

Definition sampled_rows (self : BaseSampler) (df : DataFrame)
    (sample_size : Z) : result DataFrame :=
  df_sample df (Z.min sample_size (Z.of_nat (List.length df)))
            (random_state self).

(** [RandomSampler.create_sample]; numpy's global generator is passed
    through. *)
Definition create_sample (self : BaseSampler) (df : DataFrame)
    (sample_size : Z) (np_global : RandomState)
    : result (list Example) * RandomState :=
  (sampled_df <- sampled_rows self df sample_size ;;
   Ok (examples_of_rows sampled_df),
   np_global).

End Sampler.

(** ** Distribution report *)

(** [Series.describe()] of a numeric column, in exact rationals where
    pandas computes in binary floating point; [None] is NaN.  The
    standard deviation is kept as its square. *)
Record Stats : Type := mkStats {
  st_count : nat;
  st_mean : option Q;
  st_std_sq : option Q;
  st_min : option Q;
  st_q25 : option Q;
  st_q50 : option Q;
  st_q75 : option Q;
  st_max : option Q
}.

Fixpoint insert_sorted (x : Z) (l : list Z) : list Z :=
  match l with
  | [] => [x]
  | y :: l' => if (x <=? y)%Z then x :: l else y :: insert_sorted x l'
  end.

Definition sort (l : list Z) : list Z := fold_right insert_sorted [] l.

Definition sum (l : list Z) : Z := fold_right Z.add 0%Z l.

(** Linear interpolation at rank [(n - 1) * k / 4]. *)
Definition quartile (k : nat) (sorted : list Z) : option Q :=
  match sorted with
  | [] => None
  | x0 :: _ =>
      let h := (List.length sorted - 1) * k in
      let lo := nth (h / 4) sorted x0 in
      let hi := nth (Datatypes.S (h / 4)) sorted lo in
      Some (Qred (inject_Z lo
                  + (Z.of_nat (h mod 4) # 4) * inject_Z (hi - lo))%Q)
  end.

Definition describe (column : list Z) : Stats :=
  let n := List.length column in
  let zn := Z.of_nat n in
  let s := sum column in
  let sorted := sort column in
  {| st_count := n;
     st_mean := match n with
                | O => None
                | _ => Some (Qred (s # Z.to_pos zn))
                end;
     st_std_sq :=
       match n with
       | O | 1 => None
       | _ => Some (Qred ((zn * sum (map (fun x => x * x)%Z column) - s * s)
                          # Z.to_pos (zn * (zn - 1))))
       end;
     st_min := option_map inject_Z (hd_error sorted);
     st_q25 := quartile 1 sorted;
     st_q50 := quartile 2 sorted;
     st_q75 := quartile 3 sorted;
     st_max := option_map inject_Z (hd_error (rev sorted)) |}.

(** One dict of [sample_data]; [random.py] leaves [themes] out. *)
Record SampleRow : Type := mkSampleRow {
  sr_rating : Z;
  sr_popularity : Z;
  sr_rating_deviation : Z;
  sr_themes : option string
}.

(** [sample_df[name]]: a frame built from no dicts has no columns. *)
Definition sample_column (name : string) (get : SampleRow -> Z)
    (sample_data : list SampleRow) : result (list Z) :=
  match sample_data with
  | [] => Raise (KeyError name)
  | _ => Ok (map get sample_data)
  end.

(** The returned dict, in insertion order: name, then the population
    column and the sample column of the paired frame. *)
Definition Report : Type := list (string * (Stats * Stats)).

(** The statements the two analyzers share line for line once
    [sample_data] is built: the rating statistics first, then the
    popularity statistics. *)
Definition compare_columns (population_df : DataFrame)
    (sample_data : list SampleRow) : result Report :=
  let pop_rating_stats := describe (map (fun ir => Rating (snd ir)) population_df) in
  sample_rating <- sample_column "rating" sr_rating sample_data ;;
  let distributions :=
    [("rating_stats", (pop_rating_stats, describe sample_rating))] in
  let pop_popularity_stats :=
    describe (map (fun ir => Popularity (snd ir)) population_df) in
  sample_popularity <- sample_column "popularity" sr_popularity sample_data ;;
  Ok (distributions
      ++ [("popularity_stats",
           (pop_popularity_stats, describe sample_popularity))]).

(** [BaseSampler.analyze_distribution] *)
Definition analyze_distribution (population_df : DataFrame)
    (sampled_examples : list Example) : result Report :=
  let sample_data :=
    map (fun ex =>
           {| sr_rating := rating (metadata ex);
              sr_popularity := popularity (metadata ex);
              sr_rating_deviation := rating_deviation (metadata ex);
              sr_themes := Some (themes (metadata ex)) |})
        sampled_examples in
  compare_columns population_df sample_data.

(** [analyze_sample_distribution] of [random.py] *)
Definition analyze_sample_distribution (df : DataFrame)
    (sampled_examples : list Example) : result Report :=
  let sample_data :=
    map (fun ex =>
           {| sr_rating := rating (metadata ex);
              sr_popularity := popularity (metadata ex);
              sr_rating_deviation := rating_deviation (metadata ex);
              sr_themes := None |})
        sampled_examples in
  compare_columns df sample_data.

Fixpoint report_lookup (name : string) (rep : Report) : option (Stats * Stats) :=
  match rep with
  | [] => None
  | (k, v) :: rep' => if String.eqb k name then Some v else report_lookup name rep'
  end.

(** ** A small engine and a small generator for the closed examples

    A take-away game stands in for chess: a position is a pile of
    tokens, written with one [o] per token; a move takes one token
    ([t1]) or two ([t2]); the empty pile has no legal move.  Like
    [chess.Board], the parser accepts blanks that the printer does not
    emit. *)

Module Pile.

Inductive move : Type := Take1 | Take2.

Fixpoint parse (s : string) : option nat :=
  match s with
  | EmptyString => Some 0
  | String c s' =>
      if Ascii.eqb c "o" then option_map Datatypes.S (parse s')
      else if Ascii.eqb c " " then parse s'
      else None
  end.

Fixpoint render (n : nat) : string :=
  match n with
  | O => ""
  | Datatypes.S n' => String "o" (render n')
  end.

Definition legal (n : nat) : list move :=
  match n with
  | 0 => []
  | 1 => [Take1]
  | _ => [Take1; Take2]
  end.

Definition name (m : move) : string :=
  match m with
  | Take1 => "t1"
  | Take2 => "t2"
  end.

Definition push (n : nat) (s : string) : option nat :=
  if String.eqb s "t1" then
    match n with
    | Datatypes.S n' => Some n'
    | _ => None
    end
  else if String.eqb s "t2" then
    match n with
    | Datatypes.S (Datatypes.S n') => Some n'
    | _ => None
    end
  else None.

Definition engine : PositionEngine :=
  {| Board := nat;
     Move := move;
     chess_Board := parse;
     fen := render;
     legal_moves := legal;
     uci := name;
     push_uci := push |}.

(** The generator: the identity order for an even seed, the reversed
    order for an odd one. *)
Definition shuffle (seed : Z) (n : nat) : list nat :=
  if Z.even seed then seq 0 n else rev (seq 0 n).

Definition sampling : Sampling :=
  {| RandomState := Z;
     seeded := fun seed => seed;
     permutation := shuffle |}.

Definition row (id position mvs : string) : Row :=
  {| PuzzleId := id;
     FEN := position;
     Moves := mvs;
     Rating := 1500;
     RatingDeviation := 80;
     Popularity := 90;
     Themes := "short";
     puzzle_fen := position;
     row_expected_move := "t1";
     row_opponent_move := "t2" |}.

(** A row with given statistics fields. *)
Definition rated (id position : string) (elo dev pop : Z) : Row :=
  {| PuzzleId := id;
     FEN := position;
     Moves := "t1";
     Rating := elo;
     RatingDeviation := dev;
     Popularity := pop;
     Themes := "short";
     puzzle_fen := position;
     row_expected_move := "t1";
     row_opponent_move := "t2" |}.

End Pile.

(** ** The stored development set ([src/loader.py]) *)

(** An outcome with its own kind of exception, for the code outside the
    samplers. *)
Inductive outcome (X A : Type) : Type :=
| Returned (a : A)
| Raised (x : X).

Arguments Returned {X A} a.
Arguments Raised {X A} x.

Inductive load_exn : Type :=
| FileNotFoundError
| EvalRaised
| NoExamplesFound.

(** One row of [data/devset.parquet]; [d_possible_moves] is the text
    that [eval] turns into a dict. *)
Record DevRow : Type := mkDevRow {
  d_puzzle : string;
  d_possible_moves : string;
  d_expected_move : string;
  d_puzzle_id : string;
  d_rating : Z;
  d_popularity : Z;
  d_rating_deviation : Z;
  d_themes : string;
  d_initial_fen : string;
  d_opponent_move : string
}.

(** [str(k)] of a dict key *)
Definition key_str (k : key) : string :=
  match k with
  | KInt i => str i
  | KStr s => s
  end.

(** [d[k] = v] on a dict in insertion order: a key already there keeps
    its place and takes the new value. *)
Fixpoint dict_set (k v : string) (d : list (string * string))
    : list (string * string) :=
  match d with
  | [] => [(k, v)]
  | (k', v') :: d' =>
      if String.eqb k' k then (k', v) :: d'
      else (k', v') :: dict_set k v d'
  end.

(** [{str(k): v for k, v in items}] *)
Definition string_keyed (items : list (key * string))
    : list (string * string) :=
  fold_left (fun d kv => dict_set (key_str (fst kv)) (snd kv) d) items [].

Section Loader.

(** [eval(text).items()]: the items of the dict the text denotes, [None]
    when the evaluation or the call raises. *)
Variable py_eval_items : string -> option (list (key * string)).

Definition dev_example (row : DevRow) : option Example :=
  match py_eval_items (d_possible_moves row) with
  | None => None
  | Some items =>
      Some {| puzzle := d_puzzle row;
              possible_moves :=
                map (fun kv => (KStr (fst kv), snd kv)) (string_keyed items);
              expected_move := d_expected_move row;
              puzzle_id := d_puzzle_id row;
              metadata :=
                {| rating := d_rating row;
                   popularity := d_popularity row;
                   rating_deviation := d_rating_deviation row;
                   themes := d_themes row;
                   moves := None;
                   initial_fen := d_initial_fen row;
                   opponent_move := Some (d_opponent_move row);
                   control_group := None |};
              move_index := None |}
  end.

(** The row holds the fields of the example, its mapping apart. *)
Definition stores (row : DevRow) (e : Example) : Prop :=
  d_puzzle row = puzzle e /\
  d_expected_move row = expected_move e /\
  d_puzzle_id row = puzzle_id e /\
  d_rating row = rating (metadata e) /\
  d_popularity row = popularity (metadata e) /\
  d_rating_deviation row = rating_deviation (metadata e) /\
  d_themes row = themes (metadata e) /\
  d_initial_fen row = initial_fen (metadata e) /\
  Some (d_opponent_move row) = opponent_move (metadata e).

(** The list comprehension over [devset_df.iterrows()] *)
Fixpoint dev_examples (rows : list DevRow)
    : outcome load_exn (list Example) :=
  match rows with
  | [] => Returned []
  | row :: rows' =>
      match dev_example row with
      | None => Raised EvalRaised
      | Some example =>
          match dev_examples rows' with
          | Returned examples => Returned (example :: examples)
          | Raised x => Raised x
          end
      end
  end.

(** [load_devset]; [path_exists] is [os.path.exists(devset_path)] and
    [devset_df] the frame read from the file. *)
Definition load_devset (path_exists : bool) (devset_df : list DevRow)
    : outcome load_exn (list Example) :=
  if negb path_exists then Raised FileNotFoundError
  else
    match dev_examples devset_df with
    | Raised x => Raised x
    | Returned [] => Raised NoExamplesFound
    | Returned examples => Returned examples
    end.

End Loader.

(** ** The metric and the result table ([main.py]) *)

(** A value a prediction may hold in its [move] field. *)
Inductive pyval : Type :=
| PInt (z : Z)
| PStr (s : string)
| PNone.

(** A prediction; [pred_move] is [None] when the object has no [move]
    attribute. *)
Record Prediction : Type := mkPrediction {
  pred_move : option pyval
}.

Inductive metric_exn : Type :=
| MetricValueError
| MetricTypeError
| MetricAttributeError.

(** Blanks that [int] strips, for code points below 256. *)
Definition int_space (c : ascii) : bool :=
  let n := nat_of_ascii c in
  (Nat.leb 9 n && Nat.leb n 13) || Nat.eqb n 32
  || Nat.eqb n 133 || Nat.eqb n 160.

Definition digit_value (c : ascii) : option Z :=
  let n := nat_of_ascii c in
  if Nat.leb 48 n && Nat.leb n 57 then Some (Z.of_nat (n - 48)) else None.

(** Where the scan of a decimal literal stands: before the sign, after
    it, after a digit, after an underscore, in the final blanks. *)
Inductive scan : Type :=
| Leading
| Signed (neg : bool)
| Digits (neg : bool) (acc : Z) (count : nat)
| Underscore (neg : bool) (acc : Z) (count : nat)
| Trailing (neg : bool) (acc : Z) (count : nat).

Definition more_digits (neg : bool) (acc : Z) (count : nat) (c : ascii)
    : option scan :=
  match digit_value c with
  | Some d => Some (Digits neg (10 * acc + d)%Z (S count))
  | None => None
  end.

Definition scan_step (st : scan) (c : ascii) : option scan :=
  match st with
  | Leading =>
      if int_space c then Some Leading
      else if Ascii.eqb c "+" then Some (Signed false)
      else if Ascii.eqb c "-" then Some (Signed true)
      else more_digits false 0%Z 0 c
  | Signed neg => more_digits neg 0%Z 0 c
  | Digits neg acc count =>
      if Ascii.eqb c "_" then Some (Underscore neg acc count)
      else if int_space c then Some (Trailing neg acc count)
      else more_digits neg acc count c
  | Underscore neg acc count => more_digits neg acc count c
  | Trailing neg acc count =>
      if int_space c then Some (Trailing neg acc count) else None
  end.

Fixpoint scan_from (st : scan) (s : string) : option scan :=
  match s with
  | EmptyString => Some st
  | String c s' =>
      match scan_step st c with
      | Some st' => scan_from st' s'
      | None => None
      end
  end.

(** The longest digit string [int] converts. *)
Definition max_str_digits : nat := 4300.

Definition signed_value (neg : bool) (acc : Z) (count : nat) : option Z :=
  if Nat.leb count max_str_digits
  then Some (if neg then (- acc)%Z else acc)
  else None.

(** [int(s)] of a string in base ten; [None] is [ValueError]. *)
Definition py_int (s : string) : option Z :=
  match scan_from Leading s with
  | Some (Digits neg acc count) => signed_value neg acc count
  | Some (Trailing neg acc count) => signed_value neg acc count
  | _ => None
  end.

(** The characters a decimal literal may contain. *)
Definition literal_char (c : ascii) : bool :=
  int_space c || Ascii.eqb c "+" || Ascii.eqb c "-" || Ascii.eqb c "_"
  || match digit_value c with
     | Some _ => true
     | None => false
     end.

(** [int(pred.move)] *)
Definition int_of_move (pred : Prediction) : outcome metric_exn Z :=
  match pred_move pred with
  | None => Raised MetricAttributeError
  | Some (PInt z) => Returned z
  | Some (PStr s) =>
      match py_int s with
      | Some z => Returned z
      | None => Raised MetricValueError
      end
  | Some PNone => Raised MetricTypeError
  end.

(** [validate_move]: the left operand is converted first. *)
Definition validate_move (example : Example) (pred : Prediction)
    : outcome metric_exn bool :=
  match int_of_move pred with
  | Raised x => Raised x
  | Returned predicted =>
      match py_int (expected_move example) with
      | None => Raised MetricValueError
      | Some expected => Returned (Z.eqb predicted expected)
      end
  end.

(** The columns logged by [mlflow.log_table]. *)
Record Table : Type := mkTable {
  PuzzleFEN : list string;
  ExpectedMove : list string;
  PredictedMove : list pyval;
  Correct : list bool
}.

(** The loop over [outputs], which skips a prediction without [move];
    the trace of each output is not read and is left out. *)
Fixpoint collect_predictions (outputs : list (Example * Prediction))
    : list (string * string * pyval) :=
  match outputs with
  | [] => []
  | (example, pred) :: outputs' =>
      match pred_move pred with
      | None => collect_predictions outputs'
      | Some mv =>
          (puzzle example, expected_move example, mv)
          :: collect_predictions outputs'
      end
  end.

(** [[flag for i, flag in enumerate(all_scores) if i < len(predicted_moves)]] *)
Definition correct_flags (all_scores : list bool) (predicted : nat)
    : list bool :=
  map snd (filter (fun iflag => Nat.ltb (fst iflag) predicted)
                  (enumerate all_scores)).

Definition result_table (outputs : list (Example * Prediction))
    (all_scores : list bool) : Table :=
  let kept := collect_predictions outputs in
  {| PuzzleFEN := map (fun t => fst (fst t)) kept;
     ExpectedMove := map (fun t => snd (fst t)) kept;
     PredictedMove := map snd kept;
     Correct := correct_flags all_scores (List.length kept) |}.

(** * Facts *)

Unset Implicit Arguments.

Lemma Pile_shuffle_perm (seed : Z) (n : nat) :
  Permutation (Pile.shuffle seed n) (seq 0 n).
Proof.
  unfold Pile.shuffle. destruct (Z.even seed).
  - apply Permutation_refl.
  - apply Permutation_sym, Permutation_rev.
Qed.

(** ** [enumerate] and dict keys *)

Lemma enumerate_from_fst {A : Type} (l : list A) (i : nat) :
  map fst (enumerate_from i l) = seq i (List.length l).
Proof.
  revert i. induction l as [|x l IH]; intro i; simpl.
  - reflexivity.
  - now rewrite IH.
Qed.

Lemma enumerate_from_snd {A : Type} (l : list A) (i : nat) :
  map snd (enumerate_from i l) = l.
Proof.
  revert i. induction l as [|x l IH]; intro i; simpl.
  - reflexivity.
  - now rewrite IH.
Qed.

Lemma keyed_fst {A B : Type} (k : nat -> key) (f : A -> B) (l : list A) :
  map fst (map (fun im => (k (fst im), f (snd im))) (enumerate l))
  = map k (seq 0 (List.length l)).
Proof.
  rewrite map_map. simpl.
  rewrite <- (enumerate_from_fst l 0), map_map. reflexivity.
Qed.

Lemma keyed_snd {A B : Type} (k : nat -> key) (f : A -> B) (l : list A) :
  map snd (map (fun im => (k (fst im), f (snd im))) (enumerate l))
  = map f l.
Proof.
  rewrite map_map. simpl.
  rewrite <- (enumerate_from_snd l 0) at 2. now rewrite map_map.
Qed.

(** ** The replay loop *)

Section BuilderFacts.

Context {E : PositionEngine}.

Variables (r : Row) (md : Metadata).

Lemma ply_example_keys (board : Board) (i : nat) (m : string) :
  map fst (possible_moves (ply_example r md board i m))
  = map KInt (seq 0 (List.length (legal_moves board))).
Proof.
  unfold ply_example, legal_moves_uci. simpl.
  rewrite (keyed_fst KInt (fun s : string => s)).
  now rewrite length_map.
Qed.

Lemma ply_example_values (board : Board) (i : nat) (m : string) :
  map snd (possible_moves (ply_example r md board i m))
  = legal_moves_uci board.
Proof.
  unfold ply_example. simpl.
  rewrite (keyed_snd KInt (fun s : string => s)). apply map_id.
Qed.

Lemma last_ply (i : nat) : Nat.ltb i (i + 1 - 1) = false.
Proof. apply Nat.ltb_ge. lia. Qed.

Lemma inner_ply (i k : nat) : Nat.ltb i (i + S (S k) - 1) = true.
Proof. apply Nat.ltb_lt. lia. Qed.

(** When the moves to apply are accepted, the loop returns one example
    per move, in order, along a play from [board]. *)
Lemma replay_ok (todo : list string) :
  forall (board : Board) (idx n : nat),
    n = idx + List.length todo ->
    replayable board todo ->
    exists exs,
      replay r md n board idx todo = Ok exs /\
      map expected_move exs = todo /\
      map move_index exs = map Some (seq idx (List.length todo)) /\
      (todo <> [] -> continuation board exs).
Proof.
  induction todo as [|m rest IH]; intros board idx n Hn Hplay.
  - exists []. simpl. repeat split; try reflexivity. congruence.
  - cbn [replay]. destruct rest as [|m' rest'].
    + exists [ply_example r md board idx m].
      simpl in Hn. subst n. rewrite last_ply. simpl.
      repeat split; try reflexivity.
      intros _. now constructor.
    + simpl in Hn. subst n. rewrite inner_ply.
      cbn [replayable] in Hplay.
      destruct (push_uci board m) as [board'|] eqn:Hpush; [|contradiction].
      destruct (IH board' (S idx) (idx + S (S (List.length rest'))))
        as (exs & Hrun & Hexp & Hidx & Hcont); [simpl; lia | exact Hplay |].
      exists (ply_example r md board idx m :: exs).
      cbn [bind]. rewrite Hrun. cbn [bind].
      repeat split.
      * simpl. now rewrite Hexp.
      * simpl. now rewrite Hidx.
      * intros _. eapply continuation_step; [reflexivity | exact Hpush |].
        apply Hcont. discriminate.
Qed.

(** When an application is refused, the loop raises. *)
Lemma replay_raises (todo : list string) :
  forall (board : Board) (idx n : nat),
    n = idx + List.length todo ->
    ~ replayable board todo ->
    replay r md n board idx todo = Raise ValueError.
Proof.
  induction todo as [|m rest IH]; intros board idx n Hn Hno.
  - exfalso. apply Hno. exact I.
  - cbn [replay]. destruct rest as [|m' rest'].
    + exfalso. apply Hno. exact I.
    + simpl in Hn. subst n. rewrite inner_ply.
      cbn [replayable] in Hno.
      destruct (push_uci board m) as [board'|] eqn:Hpush; [|reflexivity].
      cbn [bind].
      rewrite (IH board' (S idx)); [reflexivity | simpl; lia | exact Hno].
Qed.

Lemma legal_replayable (todo : list string) :
  forall board : Board, legal_in_sequence board todo -> replayable board todo.
Proof.
  induction todo as [|m rest IH]; intros board H; [exact I|].
  destruct rest as [|m' rest']; [exact I|].
  cbn [legal_in_sequence] in H. cbn [replayable].
  destruct H as [_ H].
  destruct (push_uci board m); [now apply IH | contradiction].
Qed.

(** Every example of a successful run lists the legal moves of a board
    under the keys 0, 1, ... and shows that board's rendering. *)
Lemma replay_keys (todo : list string) :
  forall (board : Board) (idx n : nat) (exs : list Example),
    replay r md n board idx todo = Ok exs ->
    Forall (fun e => exists b : Board,
                puzzle e = fen b /\
                map fst (possible_moves e)
                = map KInt (seq 0 (List.length (legal_moves b))) /\
                map snd (possible_moves e) = legal_moves_uci b) exs.
Proof.
  induction todo as [|m rest IH]; intros board idx n exs Hrun.
  - simpl in Hrun. injection Hrun as <-. constructor.
  - cbn [replay] in Hrun.
    destruct (if Nat.ltb idx (n - 1)
              then match push_uci board m with
                   | Some b => Ok b
                   | None => Raise ValueError
                   end
              else Ok board) as [board'|e]; [|discriminate].
    cbn [bind] in Hrun.
    destruct (replay r md n board' (S idx) rest) as [exs'|e] eqn:Hrest;
      [|discriminate].
    cbn [bind] in Hrun. injection Hrun as <-.
    constructor.
    + exists board. split; [reflexivity|].
      split; [apply ply_example_keys | apply ply_example_values].
    + eapply IH. exact Hrest.
Qed.

(** With every move legal at its ply, each expected move is among the
    values of its example's mapping. *)
Lemma replay_expected_listed (todo : list string) :
  forall (board : Board) (idx n : nat) (exs : list Example),
    n = idx + List.length todo ->
    legal_in_sequence board todo ->
    replay r md n board idx todo = Ok exs ->
    Forall (fun e => In (expected_move e) (map snd (possible_moves e))) exs.
Proof.
  induction todo as [|m rest IH]; intros board idx n exs Hn Hlegal Hrun.
  - simpl in Hrun. injection Hrun as <-. constructor.
  - destruct Hlegal as [Hin Hnext]. cbn [replay] in Hrun.
    destruct rest as [|m' rest'].
    + simpl in Hn. subst n. rewrite last_ply in Hrun.
      simpl in Hrun. injection Hrun as <-.
      constructor; [|constructor].
      rewrite ply_example_values. exact Hin.
    + simpl in Hn. subst n. rewrite inner_ply in Hrun.
      destruct (push_uci board m) as [board'|]; [|contradiction].
      cbn [bind] in Hrun.
      destruct (replay r md (idx + S (S (List.length rest'))) board'
                       (S idx) (m' :: rest')) as [exs'|e] eqn:Hrest;
        [|discriminate].
      cbn [bind] in Hrun. injection Hrun as <-.
      constructor.
      * rewrite ply_example_values. exact Hin.
      * eapply IH; [| exact Hnext | exact Hrest]. simpl. lia.
Qed.

End BuilderFacts.

(** ** The builder and the assembler *)

Section AssemblerFacts.

Context {E : PositionEngine}.

Lemma create_dspy_example_runs (r : Row) (cg : option string)
    (board : Board) :
  chess_Board (FEN r) = Some board ->
  1 <= List.length (split (Moves r)) ->
  _create_dspy_example r cg
  = (examples <- replay r (puzzle_metadata r (split (Moves r)) cg)
                        (List.length (split (Moves r))) board 0
                        (split (Moves r)) ;;
     Ok (Some examples)).
Proof.
  intros Hboard Hlen. unfold _create_dspy_example.
  destruct (split (Moves r)) as [|m rest] eqn:Hsplit.
  - simpl in Hlen. lia.
  - now rewrite Hboard.
Qed.

(** The records after a prefix that assembles are processed as if the
    frame started with them. *)
Lemma create_examples_from_df_app (pre rest : DataFrame)
    (cgs : option (list string)) :
  forall earlier,
    _create_examples_from_df pre cgs = Ok earlier ->
    _create_examples_from_df (pre ++ rest) cgs
    = (later <- _create_examples_from_df rest cgs ;; Ok (earlier ++ later)).
Proof.
  induction pre as [|[idx r] pre IH]; intros earlier Hpre.
  - simpl in Hpre. injection Hpre as <-. simpl.
    now destruct (_create_examples_from_df rest cgs).
  - cbn [_create_examples_from_df app] in *.
    destruct (label_at cgs idx) as [cg|e]; [|discriminate].
    cbn [bind] in *.
    destruct (_create_dspy_example r cg) as [pe|e]; [|discriminate].
    cbn [bind] in *.
    destruct (_create_examples_from_df pre cgs) as [mid|e]; [|discriminate].
    cbn [bind] in Hpre. injection Hpre as <-.
    rewrite (IH mid eq_refl).
    destruct (_create_examples_from_df rest cgs) as [later|e];
      [|reflexivity].
    cbn [bind]. f_equal.
    destruct pe as [[|x xs]|]; try reflexivity.
    now rewrite app_assoc.
Qed.

End AssemblerFacts.

(** ** The single-ply loop *)

Section SamplerFacts.

Context {E : PositionEngine}.

Lemma examples_of_rows_app (a b : DataFrame) :
  examples_of_rows (a ++ b) = examples_of_rows a ++ examples_of_rows b.
Proof.
  induction a as [|[idx row] a IH]; [reflexivity|].
  cbn [examples_of_rows app]. rewrite IH.
  now destruct (row_example row).
Qed.

(** A row whose position has no legal move adds nothing, and the rows
    around it are processed. *)
Lemma examples_of_rows_skips (a b : DataFrame) (idx : nat) (row : Row)
    (board : Board) :
  chess_Board (puzzle_fen row) = Some board ->
  legal_moves board = [] ->
  examples_of_rows (a ++ (idx, row) :: b)
  = examples_of_rows a ++ examples_of_rows b.
Proof.
  intros Hboard Hnone. rewrite examples_of_rows_app. f_equal.
  cbn [examples_of_rows]. unfold row_example.
  now rewrite Hboard, Hnone.
Qed.

(** A row whose position the engine rejects adds nothing either. *)
Lemma examples_of_rows_skips_error (a b : DataFrame) (idx : nat)
    (row : Row) :
  chess_Board (puzzle_fen row) = None ->
  examples_of_rows (a ++ (idx, row) :: b)
  = examples_of_rows a ++ examples_of_rows b.
Proof.
  intros Hboard. rewrite examples_of_rows_app. f_equal.
  cbn [examples_of_rows]. unfold row_example.
  now rewrite Hboard.
Qed.

Lemma row_example_keys (row : Row) (e : Example) :
  row_example row = Some e ->
  exists board : Board,
    chess_Board (puzzle e) = Some board /\
    possible_moves e <> [] /\
    map fst (possible_moves e)
    = map (fun i => KStr (str i)) (seq 0 (List.length (legal_moves board))) /\
    map snd (possible_moves e) = legal_moves_uci board.
Proof.
  unfold row_example.
  destruct (chess_Board (puzzle_fen row)) as [board|] eqn:Hboard;
    [|discriminate].
  destruct (map (fun im => (KStr (str (fst im)), uci (snd im)))
                (enumerate (legal_moves board))) as [|kv kvs] eqn:Hlegal;
    [discriminate|].
  intros [= <-]. cbn [puzzle possible_moves].
  exists board. split; [exact Hboard|]. split; [discriminate|].
  rewrite <- Hlegal. split.
  - apply (keyed_fst (fun i => KStr (str i)) uci).
  - apply (keyed_snd (fun i => KStr (str i)) uci).
Qed.

Lemma examples_of_rows_keys (rows : DataFrame) (e : Example) :
  In e (examples_of_rows rows) ->
  exists row, In row (map snd rows) /\ row_example row = Some e.
Proof.
  induction rows as [|[idx row] rows IH]; [intros []|].
  cbn [examples_of_rows].
  destruct (row_example row) as [e'|] eqn:Hrow.
  - intros [<- | Hin].
    + exists row. split; [now left | exact Hrow].
    + destruct (IH Hin) as (row' & Hin' & Hrow').
      exists row'. split; [now right | exact Hrow'].
  - intros Hin. destruct (IH Hin) as (row' & Hin' & Hrow').
    exists row'. split; [now right | exact Hrow'].
Qed.

End SamplerFacts.

(** ** Row selection *)

Section SelectionFacts.


Lemma take_in_range (df : DataFrame) (positions : list nat) :
  Forall (fun p => p < List.length df) positions ->
  exists rows,
    take df positions = Ok rows /\
    rows = flat_map (fun p => match nth_error df p with
                              | Some row => [row]
                              | None => []
                              end) positions.
Proof.
  induction 1 as [|p ps Hp _ IH].
  - exists []. split; reflexivity.
  - destruct IH as (rows & Htake & Hrows).
    cbn [take flat_map].
    destruct (nth_error df p) as [row|] eqn:Hnth.
    + exists (row :: rows). rewrite Htake. cbn [bind].
      split; [reflexivity|]. now rewrite Hrows.
    + exfalso. apply nth_error_None in Hnth. lia.
Qed.


End SelectionFacts.

(** * The multi-ply builder *)

(** C1.  For a record whose solution has N >= 1 moves, each among the
    legal moves of the board of its ply (and accepted by the engine when
    the loop applies it), [_create_dspy_example] returns exactly N
    examples, their [move_index] fields are 0, ..., N-1 in order, and
    each example's [expected_move] is a value of its [possible_moves]
    mapping. *)
Theorem create_dspy_example_one_per_ply
    (E : PositionEngine) (r : Row) (cg : option string) (board : Board) :
  chess_Board (FEN r) = Some board ->
  1 <= List.length (split (Moves r)) ->
  legal_in_sequence board (split (Moves r)) ->
  exists exs,
    _create_dspy_example r cg = Ok (Some exs) /\
    List.length exs = List.length (split (Moves r)) /\
    map move_index exs
    = map Some (seq 0 (List.length (split (Moves r)))) /\
    Forall (fun e => In (expected_move e) (map snd (possible_moves e))) exs.
Proof.
  intros Hboard Hlen Hlegal.
  rewrite (create_dspy_example_runs r cg board Hboard Hlen).
  set (md := puzzle_metadata r (split (Moves r)) cg).
  destruct (replay_ok r md (split (Moves r)) board 0
                      (List.length (split (Moves r))) eq_refl
                      (legal_replayable _ _ Hlegal))
    as (exs & Hrun & Hexp & Hidx & _).
  exists exs. rewrite Hrun. cbn [bind].
  split; [reflexivity|]. split.
  - rewrite <- Hexp. now rewrite length_map.
  - split; [exact Hidx|].
    eapply replay_expected_listed; [| exact Hlegal | exact Hrun].
    reflexivity.
Qed.

Lemma create_dspy_example_one_per_ply_witness :
  exists exs,
    _create_dspy_example (E := Pile.engine)
      (Pile.row "p1" "ooo" "t2 t1") (Some "g") = Ok (Some exs) /\
    List.length exs = 2 /\
    map move_index exs = [Some 0; Some 1] /\
    Forall (fun e => In (expected_move e) (map snd (possible_moves e))) exs.
Proof.
  apply (create_dspy_example_one_per_ply Pile.engine
           (Pile.row "p1" "ooo" "t2 t1") (Some "g") 3).
  - reflexivity.
  - simpl. lia.
  - simpl. auto.
Defined.

(** C2, as the code has it.  When the moves the loop applies are
    accepted, the example of ply 0 shows the engine's rendering of the
    board parsed from the record's start position, every later example
    shows the rendering of the previous board after the previous
    example's [expected_move], and the expected moves are the record's
    solution: the positions are those of a replay of the solution from
    the start board. *)
Theorem create_dspy_example_positions
    (E : PositionEngine) (r : Row) (cg : option string) (board : Board) :
  chess_Board (FEN r) = Some board ->
  1 <= List.length (split (Moves r)) ->
  replayable board (split (Moves r)) ->
  exists exs,
    _create_dspy_example r cg = Ok (Some exs) /\
    map expected_move exs = split (Moves r) /\
    continuation board exs.
Proof.
  intros Hboard Hlen Hplay.
  rewrite (create_dspy_example_runs r cg board Hboard Hlen).
  set (md := puzzle_metadata r (split (Moves r)) cg).
  destruct (replay_ok r md (split (Moves r)) board 0
                      (List.length (split (Moves r))) eq_refl Hplay)
    as (exs & Hrun & Hexp & _ & Hcont).
  exists exs. rewrite Hrun. cbn [bind].
  split; [reflexivity|]. split; [exact Hexp|].
  apply Hcont. intro Hnil. rewrite Hnil in Hlen. simpl in Hlen. lia.
Qed.

Lemma create_dspy_example_positions_witness :
  exists exs,
    _create_dspy_example (E := Pile.engine)
      (Pile.row "p1" "ooo " "t2 t1") None = Ok (Some exs) /\
    map expected_move exs = ["t2"; "t1"] /\
    continuation (E := Pile.engine) 3 exs.
Proof.
  apply (create_dspy_example_positions Pile.engine
           (Pile.row "p1" "ooo " "t2 t1") None 3).
  - reflexivity.
  - simpl. lia.
  - simpl. exact I.
Defined.

(** C2 as stated fails: the position of ply 0 is what the engine prints
    for the parsed board, not the record's string.  Here the start
    string ends in a blank, which the parser accepts and the printer
    does not emit. *)
Lemma first_position_is_not_the_start_string :
  ~ (forall (E : PositionEngine) (r : Row) (cg : option string)
            (exs : list Example) (e : Example),
        _create_dspy_example r cg = Ok (Some exs) ->
        hd_error exs = Some e ->
        puzzle e = FEN r).
Proof.
  intro H.
  specialize (H Pile.engine (Pile.row "p1" "ooo " "t2 t1") None
                _ _ eq_refl eq_refl).
  discriminate H.
Qed.

(** C9.  A record whose solution-move list is empty yields [None], with
    no exception, whatever its start position. *)
Theorem create_dspy_example_no_moves
    (E : PositionEngine) (r : Row) (cg : option string) :
  split (Moves r) = [] ->
  _create_dspy_example r cg = Ok None.
Proof.
  intro Hnone. unfold _create_dspy_example. now rewrite Hnone.
Qed.

Lemma create_dspy_example_no_moves_witness :
  _create_dspy_example (E := Pile.engine)
    (Pile.row "p2" "not a pile" "  ") (Some "g") = Ok None.
Proof.
  apply (create_dspy_example_no_moves Pile.engine
           (Pile.row "p2" "not a pile" "  ") (Some "g")).
  reflexivity.
Defined.

(** * The assembler *)

(** C3, what the code does.  When a move the loop applies is refused,
    the builder raises instead of returning [None], and the assembler,
    which has no handler, raises with it: the examples of the records
    before it are lost and the records after it are never visited. *)
Theorem create_examples_from_df_stops_at_refused_move
    (E : PositionEngine) (pre post : DataFrame) (idx : nat) (r : Row)
    (cgs : option (list string)) (cg : option string)
    (earlier : list Example) (board : Board) :
  _create_examples_from_df pre cgs = Ok earlier ->
  label_at cgs idx = Ok cg ->
  chess_Board (FEN r) = Some board ->
  ~ replayable board (split (Moves r)) ->
  _create_dspy_example r cg = Raise ValueError /\
  _create_examples_from_df (pre ++ (idx, r) :: post) cgs = Raise ValueError.
Proof.
  intros Hpre Hlabel Hboard Hno.
  assert (Hone : _create_dspy_example r cg = Raise ValueError).
  { rewrite (create_dspy_example_runs r cg board Hboard).
    - rewrite (replay_raises r _ (split (Moves r)) board 0 _ eq_refl Hno).
      reflexivity.
    - destruct (split (Moves r)); [exfalso; apply Hno; exact I | simpl; lia]. }
  split; [exact Hone|].
  rewrite (create_examples_from_df_app pre _ cgs earlier Hpre).
  cbn [_create_examples_from_df]. rewrite Hlabel. cbn [bind].
  rewrite Hone. reflexivity.
Qed.

Lemma create_examples_from_df_stops_at_refused_move_witness :
  _create_dspy_example (E := Pile.engine)
    (Pile.row "bad" "ooo" "t2 t2 t1") None = Raise ValueError /\
  _create_examples_from_df (E := Pile.engine)
    ([(0, Pile.row "good" "oo" "t1 t1")]
     ++ (1, Pile.row "bad" "ooo" "t2 t2 t1")
     :: [(2, Pile.row "fine" "ooo" "t1 t2")]) None
  = Raise ValueError.
Proof.
  eapply (create_examples_from_df_stops_at_refused_move Pile.engine
           [(0, Pile.row "good" "oo" "t1 t1")]
           [(2, Pile.row "fine" "ooo" "t1 t2")]
           1 (Pile.row "bad" "ooo" "t2 t2 t1") None None
           _ 3).
  - reflexivity.
  - reflexivity.
  - reflexivity.
  - simpl. intro H. exact H.
Defined.

(** C6, what the multi-ply builder does.  A one-move record whose start
    position has no legal move is not skipped: the builder returns one
    example for it, with an empty [possible_moves] mapping, and the
    assembler keeps that example. *)
Theorem create_dspy_example_keeps_position_without_moves
    (E : PositionEngine) (idx : nat) (r : Row) (m : string)
    (board : Board) :
  split (Moves r) = [m] ->
  chess_Board (FEN r) = Some board ->
  legal_moves board = [] ->
  exists e,
    _create_dspy_example r None = Ok (Some [e]) /\
    possible_moves e = [] /\
    expected_move e = m /\
    _create_examples_from_df [(idx, r)] None = Ok [e].
Proof.
  intros Hmoves Hboard Hnone.
  assert (Hone : _create_dspy_example r None
                 = Ok (Some [ply_example r (puzzle_metadata r [m] None)
                                         board 0 m])).
  { unfold _create_dspy_example. rewrite Hmoves, Hboard. reflexivity. }
  eexists. split; [exact Hone|].
  split; [| split; [reflexivity|]].
  - unfold ply_example, legal_moves_uci. cbn [possible_moves].
    rewrite Hnone. reflexivity.
  - cbn [_create_examples_from_df label_at bind]. rewrite Hone.
    reflexivity.
Qed.

Lemma create_dspy_example_keeps_position_without_moves_witness :
  exists e,
    _create_dspy_example (E := Pile.engine)
      (Pile.row "over" "" "t1") None = Ok (Some [e]) /\
    possible_moves e = [] /\
    expected_move e = "t1" /\
    _create_examples_from_df (E := Pile.engine)
      [(0, Pile.row "over" "" "t1")] None = Ok [e].
Proof.
  apply (create_dspy_example_keeps_position_without_moves Pile.engine
           0 (Pile.row "over" "" "t1") "t1" 0).
  - reflexivity.
  - reflexivity.
  - reflexivity.
Defined.

(** * The single-ply sampler *)

(** C10.  Every example of [create_sample] carries a non-empty mapping
    keyed by the strings "0", ..., str(M-1), M being the number of legal
    moves of its position; every example of [_create_dspy_example]
    carries a mapping keyed by the integers 0, ..., M-1 for the board of
    its ply, empty exactly when that board has no legal move; no key of
    the first kind equals a key of the second. *)
Theorem possible_moves_key_types
    (E : PositionEngine) (G : Sampling) (self : BaseSampler)
    (df : DataFrame) (n : Z) (g : RandomState) (singles : list Example)
    (r : Row) (cg : option string) (multis : list Example) :
  fst (create_sample self df n g) = Ok singles ->
  _create_dspy_example r cg = Ok (Some multis) ->
  (forall e, In e singles ->
     exists board : Board,
       chess_Board (puzzle e) = Some board /\
       possible_moves e <> [] /\
       map fst (possible_moves e)
       = map (fun i => KStr (str i))
             (seq 0 (List.length (legal_moves board)))) /\
  (forall e, In e multis ->
     exists board : Board,
       puzzle e = fen board /\
       map fst (possible_moves e)
       = map KInt (seq 0 (List.length (legal_moves board))) /\
       (possible_moves e = [] <-> legal_moves board = [])) /\
  (forall e e' k k',
     In e singles -> In e' multis ->
     In k (map fst (possible_moves e)) ->
     In k' (map fst (possible_moves e')) ->
     k <> k').
Proof.
  intros Hsingle Hmulti.
  assert (Hs : forall e, In e singles ->
     exists board : Board,
       chess_Board (puzzle e) = Some board /\
       possible_moves e <> [] /\
       map fst (possible_moves e)
       = map (fun i => KStr (str i))
             (seq 0 (List.length (legal_moves board)))).
  { intros e Hin. unfold create_sample in Hsingle. cbn [fst] in Hsingle.
    destruct (sampled_rows self df n) as [rows|x]; [|discriminate].
    cbn [bind] in Hsingle. injection Hsingle as <-.
    destruct (examples_of_rows_keys rows e Hin) as (row & _ & Hrow).
    destruct (row_example_keys row e Hrow) as (board & Hb & Hne & Hk & _).
    exists board. auto. }
  assert (Hm : forall e, In e multis ->
     exists board : Board,
       puzzle e = fen board /\
       map fst (possible_moves e)
       = map KInt (seq 0 (List.length (legal_moves board))) /\
       (possible_moves e = [] <-> legal_moves board = [])).
  { intros e Hin. unfold _create_dspy_example in Hmulti.
    destruct (split (Moves r)) as [|m rest]; [discriminate|].
    destruct (chess_Board (FEN r)) as [board0|]; [|discriminate].
    destruct (replay r (puzzle_metadata r (m :: rest) cg)
                     (List.length (m :: rest)) board0 0 (m :: rest))
      as [exs|x] eqn:Hrun; [|discriminate].
    cbn [bind] in Hmulti. injection Hmulti as <-.
    pose proof (replay_keys r _ _ _ _ _ _ Hrun) as Hall.
    rewrite Forall_forall in Hall.
    destruct (Hall e Hin) as (board & Hp & Hk & _).
    exists board. split; [exact Hp|]. split; [exact Hk|].
    split; intro H0.
    - rewrite H0 in Hk. cbn [map] in Hk.
      destruct (legal_moves board); [reflexivity | discriminate Hk].
    - rewrite H0 in Hk. cbn [List.length seq map] in Hk.
      destruct (possible_moves e); [reflexivity | discriminate Hk]. }
  split; [exact Hs|]. split; [exact Hm|].
  intros e e' k k' Hin Hin' Hk Hk' Heq.
  destruct (Hs e Hin) as (b & _ & _ & Hkeys).
  destruct (Hm e' Hin') as (b' & _ & Hkeys' & _).
  rewrite Hkeys in Hk. rewrite Hkeys' in Hk'.
  apply in_map_iff in Hk as (i & <- & _).
  apply in_map_iff in Hk' as (j & <- & _).
  discriminate Heq.
Qed.

Lemma possible_moves_key_types_witness :
  exists single multi,
    fst (create_sample (E := Pile.engine) (G := Pile.sampling)
           (mkSampler 43) [(0, Pile.row "a" "ooo" ""); (1, Pile.row "b" "" "")]
           5%Z 0%Z) = Ok [single] /\
    _create_dspy_example (E := Pile.engine) (Pile.row "over" "" "t1") None
    = Ok (Some [multi]) /\
    map fst (possible_moves single) = [KStr "0"; KStr "1"] /\
    possible_moves multi = [].
Proof.
  eexists. eexists.
  split; [reflexivity|]. split; [reflexivity|].
  destruct (possible_moves_key_types Pile.engine Pile.sampling
              (mkSampler 43)
              [(0, Pile.row "a" "ooo" ""); (1, Pile.row "b" "" "")]
              5%Z 0%Z _ (Pile.row "over" "" "t1") None _
              eq_refl eq_refl) as (Hs & Hm & _).
  split.
  - destruct (Hs _ (or_introl eq_refl)) as (board & _ & _ & Hk).
    reflexivity.
  - destruct (Hm _ (or_introl eq_refl)) as (board & _ & _ & Hk).
    reflexivity.
Defined.

(** C5.  Two samplers built with the same seed, whatever the state of
    numpy's global generator when they are built and when they are
    called, select the same rows in the same order from the same frame
    and size, and return the same examples (or raise alike);
    [create_sample] leaves the global generator as it found it. *)
Theorem create_sample_deterministic
    (E : PositionEngine) (G : Sampling) (seed : Z)
    (g1 g2 h1 h2 : RandomState) (df : DataFrame) (sample_size : Z) :
  sampled_rows (fst (BaseSampler_init seed g1)) df sample_size
  = sampled_rows (fst (BaseSampler_init seed g2)) df sample_size /\
  fst (create_sample (fst (BaseSampler_init seed g1)) df sample_size h1)
  = fst (create_sample (fst (BaseSampler_init seed g2)) df sample_size h2) /\
  snd (create_sample (fst (BaseSampler_init seed g1)) df sample_size h1) = h1.
Proof.
  repeat split.
Qed.

Lemma sample_positions_in_range (G : Sampling) (obj_len : nat) (n seed : Z) :
  (0 <= n <= Z.of_nat obj_len)%Z ->
  sample_positions obj_len n seed
  = Ok (firstn (Z.to_nat n) (permutation (seeded seed) obj_len)).
Proof.
  intro Hn. unfold sample_positions.
  destruct (Z.ltb_spec n 0); [lia|].
  destruct (Z.ltb_spec (Z.of_nat obj_len) n); [lia|]. reflexivity.
Qed.




(** * The distribution report *)

Lemma compare_columns_some (population_df : DataFrame) (row : SampleRow)
    (rows : list SampleRow) :
  compare_columns population_df (row :: rows)
  = Ok [("rating_stats",
         (describe (map (fun ir => Rating (snd ir)) population_df),
          describe (map sr_rating (row :: rows))));
        ("popularity_stats",
         (describe (map (fun ir => Popularity (snd ir)) population_df),
          describe (map sr_popularity (row :: rows))))].
Proof. reflexivity. Qed.

Lemma compare_columns_none (population_df : DataFrame) :
  compare_columns population_df [] = Raise (KeyError "rating").
Proof. reflexivity. Qed.

Lemma analyze_distribution_some (population_df : DataFrame)
    (ex : Example) (exs : list Example) :
  analyze_distribution population_df (ex :: exs)
  = Ok [("rating_stats",
         (describe (map (fun ir => Rating (snd ir)) population_df),
          describe (map (fun e => rating (metadata e)) (ex :: exs))));
        ("popularity_stats",
         (describe (map (fun ir => Popularity (snd ir)) population_df),
          describe (map (fun e => popularity (metadata e)) (ex :: exs))))] /\
  analyze_sample_distribution population_df (ex :: exs)
  = analyze_distribution population_df (ex :: exs).
Proof.
  unfold analyze_distribution, analyze_sample_distribution.
  cbn [map]. rewrite !compare_columns_some. cbn [map sr_rating sr_popularity].
  rewrite !map_map. cbn [sr_rating sr_popularity].
  split; reflexivity.
Qed.

(** The statistics of a constant column: its mean is the constant and
    its spread is zero. *)
Example describe_constant_column :
  st_mean (describe [1500; 1500; 1500]%Z) = Some (1500 # 1)%Q /\
  st_std_sq (describe [1500; 1500; 1500]%Z) = Some (0 # 1)%Q.
Proof. split; reflexivity. Qed.

(** C4, as the code has it.  For a non-empty sample both analyzers
    return the same report, with two entries: the descriptive statistics
    of the ratings and of the popularities, each computed over the
    population column and over the sample's metadata values and paired.
    Rating deviation is read from the metadata and not reported. *)
Theorem analyze_distribution_reports_two_attributes
    (population_df : DataFrame) (sampled_examples : list Example) :
  sampled_examples <> [] ->
  analyze_distribution population_df sampled_examples
  = Ok [("rating_stats",
         (describe (map (fun ir => Rating (snd ir)) population_df),
          describe (map (fun ex => rating (metadata ex)) sampled_examples)));
        ("popularity_stats",
         (describe (map (fun ir => Popularity (snd ir)) population_df),
          describe (map (fun ex => popularity (metadata ex))
                        sampled_examples)))] /\
  analyze_sample_distribution population_df sampled_examples
  = analyze_distribution population_df sampled_examples.
Proof.
  intro Hne. destruct sampled_examples as [|ex exs]; [congruence|].
  apply analyze_distribution_some.
Qed.

Lemma analyze_distribution_reports_two_attributes_witness :
  analyze_distribution
    [(0, Pile.rated "a" "ooo" 1500 80 90); (1, Pile.rated "b" "oo" 1500 60 70)]
    (examples_of_rows (E := Pile.engine)
       [(1, Pile.rated "b" "oo" 1500 60 70)])
  = Ok [("rating_stats",
         (describe [1500; 1500]%Z, describe [1500]%Z));
        ("popularity_stats",
         (describe [90; 70]%Z, describe [70]%Z))] /\
  analyze_sample_distribution
    [(0, Pile.rated "a" "ooo" 1500 80 90); (1, Pile.rated "b" "oo" 1500 60 70)]
    (examples_of_rows (E := Pile.engine)
       [(1, Pile.rated "b" "oo" 1500 60 70)])
  = analyze_distribution
      [(0, Pile.rated "a" "ooo" 1500 80 90);
       (1, Pile.rated "b" "oo" 1500 60 70)]
      (examples_of_rows (E := Pile.engine)
         [(1, Pile.rated "b" "oo" 1500 60 70)]).
Proof.
  apply (analyze_distribution_reports_two_attributes
           [(0, Pile.rated "a" "ooo" 1500 80 90);
            (1, Pile.rated "b" "oo" 1500 60 70)]
           (examples_of_rows (E := Pile.engine)
              [(1, Pile.rated "b" "oo" 1500 60 70)])).
  simpl. discriminate.
Defined.

(** C4 as stated fails: the report has no entry for rating deviation,
    under any name, and two inputs that differ in rating deviation alone
    get the same report. *)
Lemma report_leaves_rating_deviation_out :
  exists rep,
    analyze_distribution
      [(0, Pile.rated "a" "ooo" 1500 80 90);
       (1, Pile.rated "b" "oo" 1700 60 70)]
      (examples_of_rows (E := Pile.engine)
         [(1, Pile.rated "b" "oo" 1700 60 70)])
    = Ok rep /\
    map fst rep = ["rating_stats"; "popularity_stats"] /\
    report_lookup "rating_deviation_stats" rep = None /\
    analyze_distribution
      [(0, Pile.rated "a" "ooo" 1500 500 90);
       (1, Pile.rated "b" "oo" 1700 5 70)]
      (examples_of_rows (E := Pile.engine)
         [(1, Pile.rated "b" "oo" 1700 5 70)])
    = Ok rep.
Proof.
  eexists. split; [reflexivity|]. repeat split.
Qed.

(** C7, as the code has it.  The analyzers return a report exactly when
    the list of sampled examples is non-empty; with an empty list the
    sample frame has no columns and the lookup of its rating column
    raises [KeyError], for every population. *)
Theorem analyze_distribution_empty_sample (population_df : DataFrame)
    (sampled_examples : list Example) :
  analyze_distribution population_df [] = Raise (KeyError "rating") /\
  analyze_sample_distribution population_df [] = Raise (KeyError "rating") /\
  ((exists rep, analyze_distribution population_df sampled_examples = Ok rep)
   <-> sampled_examples <> []).
Proof.
  split; [reflexivity|]. split; [reflexivity|]. split.
  - intros [rep Hrep] ->. discriminate Hrep.
  - intro Hne. destruct sampled_examples as [|ex exs]; [congruence|].
    eexists. apply (analyze_distribution_some population_df ex exs).
Qed.

(** C7 as stated fails: with an empty list of sampled examples no
    report is returned. *)
Lemma analyze_distribution_raises_on_empty_sample :
  ~ (forall population_df : DataFrame,
        exists rep, analyze_distribution population_df [] = Ok rep).
Proof.
  intro H.
  destruct (H [(0, Pile.rated "a" "ooo" 1500 80 90)]) as [rep Hrep].
  discriminate Hrep.
Qed.

(** * Further properties of the builder *)

Section BuilderOutcomes.

Context {E : PositionEngine}.

Lemma replayable_dec (todo : list string) :
  forall board : Board, replayable board todo \/ ~ replayable board todo.
Proof.
  induction todo as [|m rest IH]; intro board; [left; exact I|].
  destruct rest as [|m' rest']; [left; exact I|].
  cbn [replayable].
  destruct (push_uci board m) as [board'|]; [apply IH | right; tauto].
Qed.

Lemma replay_length (r : Row) (md : Metadata) (todo : list string) :
  forall (board : Board) (idx n : nat) (exs : list Example),
    replay r md n board idx todo = Ok exs ->
    List.length exs = List.length todo.
Proof.
  induction todo as [|m rest IH]; intros board idx n exs Hrun.
  - simpl in Hrun. injection Hrun as <-. reflexivity.
  - cbn [replay] in Hrun.
    destruct (if Nat.ltb idx (n - 1)
              then match push_uci board m with
                   | Some b => Ok b
                   | None => Raise ValueError
                   end
              else Ok board) as [board'|e]; [|discriminate].
    cbn [bind] in Hrun.
    destruct (replay r md n board' (S idx) rest) as [exs'|e] eqn:Hrest;
      [|discriminate].
    cbn [bind] in Hrun. injection Hrun as <-.
    simpl. f_equal. eapply IH. exact Hrest.
Qed.

(** All examples of one run carry the record's id and the one metadata
    dict. *)
Lemma replay_provenance (r : Row) (md : Metadata) (todo : list string) :
  forall (board : Board) (idx n : nat) (exs : list Example),
    replay r md n board idx todo = Ok exs ->
    Forall (fun e => puzzle_id e = PuzzleId r /\ metadata e = md) exs.
Proof.
  induction todo as [|m rest IH]; intros board idx n exs Hrun.
  - simpl in Hrun. injection Hrun as <-. constructor.
  - cbn [replay] in Hrun.
    destruct (if Nat.ltb idx (n - 1)
              then match push_uci board m with
                   | Some b => Ok b
                   | None => Raise ValueError
                   end
              else Ok board) as [board'|e]; [|discriminate].
    cbn [bind] in Hrun.
    destruct (replay r md n board' (S idx) rest) as [exs'|e] eqn:Hrest;
      [|discriminate].
    cbn [bind] in Hrun. injection Hrun as <-.
    constructor; [split; reflexivity|]. eapply IH. exact Hrest.
Qed.

(** The last move is shown but never applied: two runs whose moves
    differ in the last one alone succeed or fail together and visit the
    same positions with the same mappings. *)
Lemma replay_last_move (r r' : Row) (md md' : Metadata) (m m' : string)
    (ms : list string) :
  forall (board : Board) (idx n : nat),
    n = idx + List.length ms + 1 ->
    match replay r md n board idx (ms ++ [m]),
          replay r' md' n board idx (ms ++ [m']) with
    | Ok a, Ok b =>
        map puzzle a = map puzzle b /\
        map possible_moves a = map possible_moves b
    | Raise x, Raise y => x = y
    | _, _ => False
    end.
Proof.
  induction ms as [|m0 ms IH]; intros board idx n Hn.
  - simpl in Hn. subst n. cbn [app replay].
    replace (idx + 0 + 1) with (idx + 1) by lia.
    rewrite last_ply. cbn [bind]. split; reflexivity.
  - cbn [app replay]. simpl in Hn.
    assert (Hin : Nat.ltb idx (n - 1) = true) by (apply Nat.ltb_lt; lia).
    rewrite Hin.
    destruct (push_uci board m0) as [board'|]; [|reflexivity].
    cbn [bind].
    specialize (IH board' (S idx) n ltac:(lia)).
    destruct (replay r md n board' (S idx) (ms ++ [m])) as [a|x];
      destruct (replay r' md' n board' (S idx) (ms ++ [m'])) as [b|y];
      cbn [bind]; try contradiction; try exact IH.
    destruct IH as [Hp Hk]. cbn [map]. split.
    + now rewrite Hp.
    + now rewrite Hk.
Qed.

End BuilderOutcomes.

(** X1.  What [_create_dspy_example] can do, exhaustively: with no move
    it returns [None]; with moves and a start position the engine
    rejects, or with an applied move the engine refuses, it raises
    [ValueError]; otherwise it returns a non-empty list with one example
    per move, whose expected moves are the record's moves. *)
Theorem create_dspy_example_outcomes
    (E : PositionEngine) (r : Row) (cg : option string) :
  (split (Moves r) = [] /\ _create_dspy_example r cg = Ok None) \/
  (split (Moves r) <> [] /\ chess_Board (FEN r) = None /\
   _create_dspy_example r cg = Raise ValueError) \/
  (exists board,
     split (Moves r) <> [] /\ chess_Board (FEN r) = Some board /\
     ~ replayable board (split (Moves r)) /\
     _create_dspy_example r cg = Raise ValueError) \/
  (exists board exs,
     split (Moves r) <> [] /\ chess_Board (FEN r) = Some board /\
     replayable board (split (Moves r)) /\
     _create_dspy_example r cg = Ok (Some exs) /\
     exs <> [] /\
     List.length exs = List.length (split (Moves r)) /\
     map expected_move exs = split (Moves r)).
Proof.
  unfold _create_dspy_example.
  destruct (split (Moves r)) as [|m rest] eqn:Hsplit; [left; split; reflexivity|].
  right.
  destruct (chess_Board (FEN r)) as [board|] eqn:Hboard.
  - right. destruct (replayable_dec (m :: rest) board) as [Hplay|Hno].
    + right.
      destruct (replay_ok r (puzzle_metadata r (m :: rest) cg) (m :: rest)
                          board 0 (List.length (m :: rest)) eq_refl Hplay)
        as (exs & Hrun & Hexp & _ & _).
      exists board, exs. rewrite Hrun. cbn [bind].
      split; [discriminate|]. split; [reflexivity|]. split; [exact Hplay|].
      split; [reflexivity|]. split.
      * intros ->. discriminate Hexp.
      * split; [|exact Hexp]. rewrite <- Hexp. now rewrite length_map.
    + left. exists board.
      rewrite (replay_raises r _ (m :: rest) board 0 _ eq_refl Hno).
      split; [discriminate|]. repeat split. exact Hno.
  - left. split; [discriminate|]. split; reflexivity.
Qed.

(** X2.  The last solution move is recorded but never applied or
    checked: two records with the same start position whose move lists
    differ in the last move alone are treated alike.  If one yields
    examples so does the other, with the same positions and the same
    mappings; if one raises so does the other. *)
Theorem create_dspy_example_ignores_last_move
    (E : PositionEngine) (r r' : Row) (cg cg' : option string)
    (ms : list string) (m m' : string) :
  FEN r' = FEN r ->
  split (Moves r) = ms ++ [m] ->
  split (Moves r') = ms ++ [m'] ->
  match _create_dspy_example r cg, _create_dspy_example r' cg' with
  | Ok (Some a), Ok (Some b) =>
      map puzzle a = map puzzle b /\
      map possible_moves a = map possible_moves b
  | Raise x, Raise y => x = y
  | _, _ => False
  end.
Proof.
  intros Hfen Hr Hr'. unfold _create_dspy_example.
  rewrite Hr, Hr', Hfen.
  destruct (ms ++ [m]) as [|a0 l0] eqn:H1;
    [destruct ms; discriminate H1|].
  destruct (ms ++ [m']) as [|a1 l1] eqn:H2;
    [destruct ms; discriminate H2|].
  destruct (chess_Board (FEN r)) as [board|]; [|reflexivity].
  rewrite <- H1, <- H2.
  assert (Hlen : List.length (ms ++ [m']) = List.length (ms ++ [m]))
    by (rewrite !length_app; reflexivity).
  rewrite Hlen.
  pose proof (replay_last_move r r'
                (puzzle_metadata r (ms ++ [m]) cg)
                (puzzle_metadata r' (ms ++ [m']) cg') m m' ms board 0
                (List.length (ms ++ [m]))) as H.
  rewrite length_app in H. specialize (H eq_refl).
  rewrite length_app.
  destruct (replay r _ _ board 0 (ms ++ [m])) as [a|x];
    destruct (replay r' _ _ board 0 (ms ++ [m'])) as [b|y];
    cbn [bind]; exact H.
Qed.

Lemma create_dspy_example_ignores_last_move_witness :
  match _create_dspy_example (E := Pile.engine)
          (Pile.row "p" "ooo" "t2 t1") None,
        _create_dspy_example (E := Pile.engine)
          (Pile.row "q" "ooo" "t2 zz") (Some "g") with
  | Ok (Some a), Ok (Some b) =>
      map puzzle a = map puzzle b /\
      map possible_moves a = map possible_moves b
  | Raise x, Raise y => x = y
  | _, _ => False
  end.
Proof.
  apply (create_dspy_example_ignores_last_move Pile.engine
           (Pile.row "p" "ooo" "t2 t1") (Pile.row "q" "ooo" "t2 zz")
           None (Some "g") ["t2"] "t1" "zz").
  - reflexivity.
  - reflexivity.
  - reflexivity.
Defined.

(** X3.  Every example built from a record carries the record's id and
    the same metadata: the record's rating, popularity, rating
    deviation and themes, its whole move list, its start position, and
    the control-group label unless that label is absent or empty. *)
Theorem create_dspy_example_provenance
    (E : PositionEngine) (r : Row) (cg : option string)
    (exs : list Example) :
  _create_dspy_example r cg = Ok (Some exs) ->
  Forall (fun e =>
            puzzle_id e = PuzzleId r /\
            rating (metadata e) = Rating r /\
            popularity (metadata e) = Popularity r /\
            rating_deviation (metadata e) = RatingDeviation r /\
            themes (metadata e) = Themes r /\
            moves (metadata e) = Some (split (Moves r)) /\
            initial_fen (metadata e) = FEN r /\
            opponent_move (metadata e) = None /\
            control_group (metadata e)
            = match cg with
              | Some EmptyString => None
              | Some label => Some label
              | None => None
              end) exs.
Proof.
  unfold _create_dspy_example.
  destruct (split (Moves r)) as [|m rest]; [discriminate|].
  destruct (chess_Board (FEN r)) as [board|]; [|discriminate].
  destruct (replay r (puzzle_metadata r (m :: rest) cg)
                   (List.length (m :: rest)) board 0 (m :: rest))
    as [exs'|x] eqn:Hrun; [|discriminate].
  cbn [bind]. intros [= <-].
  pose proof (replay_provenance r _ _ _ _ _ _ Hrun) as Hall.
  eapply Forall_impl; [|exact Hall].
  intros e [Hid Hmd]. rewrite Hmd. cbn.
  repeat split; try assumption.
  destruct cg as [[|c s]|]; reflexivity.
Qed.

Lemma create_dspy_example_provenance_witness :
  exists exs,
    _create_dspy_example (E := Pile.engine)
      (Pile.row "p1" "ooo" "t2 t1") (Some "") = Ok (Some exs) /\
    Forall (fun e =>
              puzzle_id e = "p1" /\
              moves (metadata e) = Some ["t2"; "t1"] /\
              control_group (metadata e) = None) exs.
Proof.
  eexists. split; [reflexivity|].
  eapply Forall_impl;
    [| apply (create_dspy_example_provenance Pile.engine
                (Pile.row "p1" "ooo" "t2 t1") (Some "") _ eq_refl)].
  intros e (Hid & _ & _ & _ & _ & Hm & _ & _ & Hc). auto.
Defined.

(** * Keys of the mappings *)

Lemma str_inj (i j : nat) : str i = str j -> i = j.
Proof.
  unfold str. intro H.
  apply Unsigned.to_uint_inj.
  assert (Hs : Some (Nat.to_uint i) = Some (Nat.to_uint j)).
  { rewrite <- (NilEmpty.usu (Nat.to_uint i)),
            <- (NilEmpty.usu (Nat.to_uint j)).
    now rewrite H. }
  now injection Hs.
Qed.

Lemma NoDup_map_inj {A B : Type} (f : A -> B) (l : list A) :
  (forall x y, f x = f y -> x = y) -> NoDup l -> NoDup (map f l).
Proof.
  intros Hinj Hnd. induction Hnd as [|x l Hnot Hnd IH]; cbn [map].
  - constructor.
  - constructor; [|exact IH].
    intro Hin. apply in_map_iff in Hin as (y & Hy & Hin).
    apply Hinj in Hy. subst y. contradiction.
Qed.

(** X4.  In every example of the single-ply sampler the keys of
    [possible_moves] are pairwise distinct, so the dict has one entry
    per legal move of the position and its values are the legal moves
    in the engine's order. *)
Theorem create_sample_keys_distinct
    (E : PositionEngine) (G : Sampling) (self : BaseSampler)
    (df : DataFrame) (n : Z) (g : RandomState) (exs : list Example)
    (e : Example) :
  fst (create_sample self df n g) = Ok exs ->
  In e exs ->
  exists board : Board,
    chess_Board (puzzle e) = Some board /\
    NoDup (map fst (possible_moves e)) /\
    List.length (possible_moves e) = List.length (legal_moves board) /\
    map snd (possible_moves e) = map uci (legal_moves board).
Proof.
  intros Hrun Hin. unfold create_sample in Hrun. cbn [fst] in Hrun.
  destruct (sampled_rows self df n) as [rows|x]; [|discriminate].
  cbn [bind] in Hrun. injection Hrun as <-.
  destruct (examples_of_rows_keys rows e Hin) as (row & _ & Hrow).
  destruct (row_example_keys row e Hrow) as (board & Hb & _ & Hk & Hv).
  exists board. split; [exact Hb|]. split.
  - rewrite Hk. apply NoDup_map_inj; [|apply seq_NoDup].
    intros i j Hij. injection Hij as Hij. now apply str_inj.
  - split; [|exact Hv].
    rewrite <- (length_map fst), Hk, length_map, length_seq. reflexivity.
Qed.

Lemma create_sample_keys_distinct_witness :
  exists e board,
    fst (create_sample (E := Pile.engine) (G := Pile.sampling)
           (mkSampler 42) [(0, Pile.row "a" "ooo" "")] 1%Z 0%Z) = Ok [e] /\
    chess_Board (PositionEngine := Pile.engine) (puzzle e) = Some board /\
    NoDup (map fst (possible_moves e)) /\
    List.length (possible_moves e)
    = List.length (legal_moves (PositionEngine := Pile.engine) board) /\
    map snd (possible_moves e)
    = map uci (legal_moves (PositionEngine := Pile.engine) board).
Proof.
  eexists.
  destruct (create_sample_keys_distinct Pile.engine Pile.sampling
              (mkSampler 42) [(0, Pile.row "a" "ooo" "")] 1%Z 0%Z
              _ _ eq_refl (or_introl eq_refl)) as (board & H).
  exists board. split; [reflexivity | exact H].
Defined.

(** * Further properties of the assembler *)

Section AssemblerOrder.

Context {E : PositionEngine}.

Lemma create_examples_from_df_app_raise (pre rest : DataFrame)
    (cgs : option (list string)) (x : exn) :
  _create_examples_from_df pre cgs = Raise x ->
  _create_examples_from_df (pre ++ rest) cgs = Raise x.
Proof.
  induction pre as [|[idx r] pre IH]; intro Hpre; [discriminate Hpre|].
  cbn [_create_examples_from_df app] in *.
  destruct (label_at cgs idx) as [cg|y]; [|exact Hpre].
  cbn [bind] in *.
  destruct (_create_dspy_example r cg) as [pe|y]; [|exact Hpre].
  cbn [bind] in *.
  destruct (_create_examples_from_df pre cgs) as [mid|y];
    [discriminate Hpre|].
  cbn [bind] in Hpre. rewrite (IH Hpre). reflexivity.
Qed.

(** What one record adds to the output. *)
Lemma create_dspy_example_shape (r : Row) (cg : option string)
    (pe : option (list Example)) :
  _create_dspy_example r cg = Ok pe ->
  let added := match pe with
               | Some (e :: es) => e :: es
               | _ => []
               end in
  map puzzle_id added
  = repeat (PuzzleId r) (List.length (split (Moves r))) /\
  map move_index added
  = map Some (seq 0 (List.length (split (Moves r)))) /\
  Forall (fun e => control_group (metadata e) = truthy_label cg) added.
Proof.
  unfold _create_dspy_example.
  destruct (split (Moves r)) as [|m rest] eqn:Hsplit.
  - intros [= <-]. cbn. repeat split. constructor.
  - destruct (chess_Board (FEN r)) as [board|]; [|discriminate].
    destruct (replay r (puzzle_metadata r (m :: rest) cg)
                     (List.length (m :: rest)) board 0 (m :: rest))
      as [exs|x] eqn:Hrun; [|discriminate].
    cbn [bind]. intros [= <-].
    destruct (replayable_dec (m :: rest) board) as [Hplay|Hno].
    + destruct (replay_ok r (puzzle_metadata r (m :: rest) cg) (m :: rest)
                          board 0 (List.length (m :: rest)) eq_refl Hplay)
        as (exs' & Hrun' & Hexp & Hidx & _).
      rewrite Hrun in Hrun'. injection Hrun' as <-.
      pose proof (replay_provenance r _ _ _ _ _ _ Hrun) as Hprov.
      pose proof (replay_length r _ _ _ _ _ _ Hrun) as Hlen.
      destruct exs as [|e es]; [discriminate Hexp|]. cbn zeta.
      split; [|split].
      * rewrite <- Hlen.
        clear - Hprov. induction Hprov as [|x l [Hx _] _ IH]; cbn.
        -- reflexivity.
        -- now rewrite Hx, IH.
      * exact Hidx.
      * eapply Forall_impl; [|exact Hprov].
        intros x [_ Hmd]. rewrite Hmd. reflexivity.
    + rewrite (replay_raises r _ (m :: rest) board 0 _ eq_refl Hno) in Hrun.
      discriminate Hrun.
Qed.

End AssemblerOrder.

Lemma assembled_shape
    (E : PositionEngine) (df : DataFrame) (cgs : option (list string))
    (exs : list Example) :
  _create_examples_from_df df cgs = Ok exs ->
  map puzzle_id exs
  = flat_map (fun ir => repeat (PuzzleId (snd ir))
                               (List.length (split (Moves (snd ir))))) df /\
  map move_index exs
  = flat_map (fun ir => map Some
                            (seq 0 (List.length (split (Moves (snd ir))))))
             df /\
  List.length exs
  = list_sum (map (fun ir => List.length (split (Moves (snd ir)))) df).
Proof.
  revert exs. induction df as [|[idx r] df IH]; intros exs Hrun.
  - simpl in Hrun. injection Hrun as <-. repeat split.
  - cbn [_create_examples_from_df] in Hrun.
    destruct (label_at cgs idx) as [cg|x]; [|discriminate].
    cbn [bind] in Hrun.
    destruct (_create_dspy_example r cg) as [pe|x] eqn:Hone; [|discriminate].
    cbn [bind] in Hrun.
    destruct (_create_examples_from_df df cgs) as [later|x]; [|discriminate].
    cbn [bind] in Hrun.
    destruct (IH later eq_refl) as (Hids & Hidx & Hlen).
    destruct (create_dspy_example_shape r cg pe Hone) as (Hid1 & Hidx1 & _).
    cbn zeta in Hid1, Hidx1.
    set (added := match pe with
                  | Some (e :: es) => e :: es
                  | _ => []
                  end) in *.
    assert (Hexs : exs = added ++ later).
    { injection Hrun as <-. subst added.
      destruct pe as [[|e es]|]; reflexivity. }
    subst exs.
    assert (Hn : List.length added = List.length (split (Moves r))).
    { rewrite <- (length_map puzzle_id added), Hid1. apply repeat_length. }
    split; [|split].
    + cbn [flat_map snd]. now rewrite map_app, Hid1, Hids.
    + cbn [flat_map snd]. now rewrite map_app, Hidx1, Hidx.
    + rewrite length_app, Hn, Hlen. reflexivity.
Qed.

(** X5.  When [_create_examples_from_df] returns, its output keeps the
    order of the records and, within a record, the order of the plies:
    the ids are each record's id repeated once per solution move, the
    ply indices restart at 0 for each record, and so the number of
    examples is the total number of solution moves of the frame. *)
Theorem create_examples_from_df_order
    (E : PositionEngine) (df : DataFrame) (cgs : option (list string))
    (exs : list Example) :
  _create_examples_from_df df cgs = Ok exs ->
  map puzzle_id exs
  = flat_map (fun ir => repeat (PuzzleId (snd ir))
                               (List.length (split (Moves (snd ir))))) df /\
  map move_index exs
  = flat_map (fun ir => map Some
                            (seq 0 (List.length (split (Moves (snd ir))))))
             df /\
  List.length exs
  = list_sum (map (fun ir => List.length (split (Moves (snd ir)))) df).
Proof.
  apply assembled_shape.
Qed.

Lemma create_examples_from_df_order_witness :
  exists exs,
    _create_examples_from_df (E := Pile.engine)
      [(0, Pile.row "a" "ooo" "t2 t1"); (1, Pile.row "b" "o" "");
       (2, Pile.row "c" "oo" "t1")] None = Ok exs /\
    map puzzle_id exs = ["a"; "a"; "c"] /\
    map move_index exs = [Some 0; Some 1; Some 0] /\
    List.length exs = 3.
Proof.
  eexists. split; [reflexivity|].
  apply (create_examples_from_df_order Pile.engine
           [(0, Pile.row "a" "ooo" "t2 t1"); (1, Pile.row "b" "o" "");
            (2, Pile.row "c" "oo" "t1")] None _ eq_refl).
Defined.

(** X6.  A record without moves is skipped silently: once its label is
    found, the output, or the exception, is the one of the frame without
    that record. *)
Theorem create_examples_from_df_skips_moveless
    (E : PositionEngine) (pre post : DataFrame) (idx : nat) (r : Row)
    (cgs : option (list string)) (cg : option string) :
  split (Moves r) = [] ->
  label_at cgs idx = Ok cg ->
  _create_examples_from_df (pre ++ (idx, r) :: post) cgs
  = _create_examples_from_df (pre ++ post) cgs.
Proof.
  intros Hnone Hlabel.
  destruct (_create_examples_from_df pre cgs) as [earlier|x] eqn:Hpre.
  - rewrite !(create_examples_from_df_app pre _ cgs earlier Hpre).
    cbn [_create_examples_from_df]. rewrite Hlabel. cbn [bind].
    unfold _create_dspy_example. rewrite Hnone. cbn [bind].
    now destruct (_create_examples_from_df post cgs).
  - now rewrite !(create_examples_from_df_app_raise pre _ cgs x Hpre).
Qed.

Lemma create_examples_from_df_skips_moveless_witness :
  _create_examples_from_df (E := Pile.engine)
    ([(0, Pile.row "a" "ooo" "t2 t1")] ++ (1, Pile.row "b" "?" " ")
     :: [(2, Pile.row "c" "oo" "t1")]) (Some ["x"; "y"; "z"])
  = _create_examples_from_df (E := Pile.engine)
      ([(0, Pile.row "a" "ooo" "t2 t1")] ++ [(2, Pile.row "c" "oo" "t1")])
      (Some ["x"; "y"; "z"]).
Proof.
  apply (create_examples_from_df_skips_moveless Pile.engine
           [(0, Pile.row "a" "ooo" "t2 t1")] [(2, Pile.row "c" "oo" "t1")]
           1 (Pile.row "b" "?" " ") (Some ["x"; "y"; "z"]) (Some "y")).
  - reflexivity.
  - reflexivity.
Defined.

(** X7.  The label of a record is looked up at its index label before
    the record is built: when the labels are fewer than that index
    requires the call raises [IndexError], even for a record that would
    have been skipped, and nothing is returned for the records before
    it. *)
Theorem create_examples_from_df_label_out_of_range
    (E : PositionEngine) (pre post : DataFrame) (idx : nat) (r : Row)
    (labels : list string) (earlier : list Example) :
  _create_examples_from_df pre (Some labels) = Ok earlier ->
  List.length labels <= idx ->
  _create_examples_from_df (pre ++ (idx, r) :: post) (Some labels)
  = Raise IndexError.
Proof.
  intros Hpre Hshort.
  rewrite (create_examples_from_df_app pre _ _ earlier Hpre).
  cbn [_create_examples_from_df label_at].
  apply nth_error_None in Hshort. rewrite Hshort. reflexivity.
Qed.

Lemma create_examples_from_df_label_out_of_range_witness :
  _create_examples_from_df (E := Pile.engine)
    ([(0, Pile.row "a" "ooo" "t2 t1")] ++ (7, Pile.row "b" "o" "")
     :: [(1, Pile.row "c" "oo" "t1")]) (Some ["x"; "y"])
  = Raise IndexError.
Proof.
  eapply (create_examples_from_df_label_out_of_range Pile.engine
            [(0, Pile.row "a" "ooo" "t2 t1")] [(1, Pile.row "c" "oo" "t1")]
            7 (Pile.row "b" "o" "") ["x"; "y"]).
  - reflexivity.
  - simpl. lia.
Defined.

(** X8.  Each example carries the label found at the index label of its
    record, not at the record's place in the frame, and no label when
    that one is empty. *)
Theorem create_examples_from_df_labels
    (E : PositionEngine) (df : DataFrame) (labels : list string)
    (exs : list Example) :
  _create_examples_from_df df (Some labels) = Ok exs ->
  Forall (fun e =>
            exists idx r label,
              In (idx, r) df /\
              nth_error labels idx = Some label /\
              puzzle_id e = PuzzleId r /\
              control_group (metadata e)
              = match label with
                | EmptyString => None
                | _ => Some label
                end) exs.
Proof.
  revert exs. induction df as [|[idx r] df IH]; intros exs Hrun.
  - simpl in Hrun. injection Hrun as <-. constructor.
  - cbn [_create_examples_from_df label_at] in Hrun.
    destruct (nth_error labels idx) as [label|] eqn:Hlabel; [|discriminate].
    cbn [bind] in Hrun.
    destruct (_create_dspy_example r (Some label)) as [pe|x] eqn:Hone;
      [|discriminate].
    cbn [bind] in Hrun.
    destruct (_create_examples_from_df df (Some labels)) as [later|x];
      [|discriminate].
    cbn [bind] in Hrun. injection Hrun as <-.
    pose proof (IH later eq_refl) as Hlater.
    assert (Hlater' : Forall (fun e =>
              exists idx0 r0 label0,
                In (idx0, r0) ((idx, r) :: df) /\
                nth_error labels idx0 = Some label0 /\
                puzzle_id e = PuzzleId r0 /\
                control_group (metadata e)
                = match label0 with
                  | EmptyString => None
                  | _ => Some label0
                  end) later).
    { eapply Forall_impl; [|exact Hlater].
      intros e (i & r0 & l0 & Hin & H). exists i, r0, l0.
      split; [now right | exact H]. }
    destruct (create_dspy_example_shape r (Some label) pe Hone)
      as (Hid & _ & Hcg).
    cbn zeta in Hid, Hcg.
    destruct pe as [[|e es]|]; try exact Hlater'.
    change (e :: es ++ later) with ((e :: es) ++ later).
    apply Forall_app. split; [|exact Hlater'].
    apply Forall_forall. intros x Hx.
    exists idx, r, label. split; [now left|]. split; [exact Hlabel|]. split.
    + pose proof (in_map puzzle_id _ _ Hx) as Hx'. rewrite Hid in Hx'.
      now apply repeat_spec in Hx'.
    + rewrite Forall_forall in Hcg. rewrite (Hcg x Hx).
      destruct label; reflexivity.
Qed.

Lemma create_examples_from_df_labels_witness :
  exists exs,
    _create_examples_from_df (E := Pile.engine)
      [(2, Pile.row "a" "ooo" "t2 t1"); (0, Pile.row "c" "oo" "t1")]
      (Some ["x"; "y"; ""]) = Ok exs /\
    Forall (fun e =>
              exists idx r label,
                In (idx, r)
                   [(2, Pile.row "a" "ooo" "t2 t1");
                    (0, Pile.row "c" "oo" "t1")] /\
                nth_error ["x"; "y"; ""] idx = Some label /\
                puzzle_id e = PuzzleId r /\
                control_group (metadata e)
                = match label with
                  | EmptyString => None
                  | _ => Some label
                  end) exs.
Proof.
  eexists. split; [reflexivity|].
  apply (create_examples_from_df_labels Pile.engine
           [(2, Pile.row "a" "ooo" "t2 t1"); (0, Pile.row "c" "oo" "t1")]
           ["x"; "y"; ""] _ eq_refl).
Defined.

(** * Further properties of the single-ply sampler *)

Section SelectionBounds.

Lemma take_length (df : DataFrame) (positions : list nat) :
  forall rows,
    take df positions = Ok rows ->
    Forall2 (fun p row => nth_error df p = Some row) positions rows.
Proof.
  induction positions as [|p ps IH]; intros rows Htake.
  - simpl in Htake. injection Htake as <-. constructor.
  - cbn [take] in Htake.
    destruct (nth_error df p) as [row|] eqn:Hnth; [|discriminate].
    destruct (take df ps) as [rows'|x]; [|discriminate].
    cbn [bind] in Htake. injection Htake as <-.
    constructor; [exact Hnth | now apply IH].
Qed.

Lemma In_firstn {A : Type} (k : nat) (l : list A) (x : A) :
  In x (firstn k l) -> In x l.
Proof.
  intro Hin. rewrite <- (firstn_skipn k l). apply in_or_app. now left.
Qed.

Lemma NoDup_firstn {A : Type} (k : nat) (l : list A) :
  NoDup l -> NoDup (firstn k l).
Proof.
  intro Hnd. rewrite <- (firstn_skipn k l) in Hnd.
  now apply NoDup_app_remove_r in Hnd.
Qed.

Lemma examples_of_rows_length {E : PositionEngine} (rows : DataFrame) :
  List.length (examples_of_rows rows) <= List.length rows.
Proof.
  induction rows as [|[idx row] rows IH]; [simpl; lia|].
  cbn [examples_of_rows]. destruct (row_example row); simpl; lia.
Qed.

End SelectionBounds.

(** X9.  For a requested size that is not negative, and a generator
    whose permutation is one, the rows are drawn without replacement:
    the selection is asked for min(size, population size) rows and does
    not raise, the positions it draws are that many and all different,
    and the selected rows are the rows at those positions in that
    order. *)
Theorem sampled_rows_without_replacement
    (G : Sampling) (self : BaseSampler) (df : DataFrame) (sample_size : Z) :
  Permutation (permutation (seeded (random_state self)) (List.length df))
              (seq 0 (List.length df)) ->
  (0 <= sample_size)%Z ->
  exists positions rows,
    sample_positions (List.length df)
      (Z.min sample_size (Z.of_nat (List.length df))) (random_state self)
    = Ok positions /\
    sampled_rows self df sample_size = Ok rows /\
    List.length rows
    = Nat.min (Z.to_nat sample_size) (List.length df) /\
    NoDup positions /\
    Forall2 (fun p row => nth_error df p = Some row) positions rows.
Proof.
  intros Hperm Hsize.
  set (perm := permutation (seeded (random_state self)) (List.length df)) in *.
  set (k := Z.to_nat (Z.min sample_size (Z.of_nat (List.length df)))).
  assert (Hk : k = Nat.min (Z.to_nat sample_size) (List.length df))
    by (subst k; lia).
  assert (Hlen : List.length perm = List.length df).
  { rewrite (Permutation_length Hperm). apply length_seq. }
  assert (Hnd : NoDup perm).
  { apply (Permutation_NoDup (Permutation_sym Hperm)), seq_NoDup. }
  destruct (take_in_range df (firstn k perm)) as (rows & Htake & _).
  { apply Forall_forall. intros p Hin. apply In_firstn in Hin.
    apply (Permutation_in _ Hperm), in_seq in Hin. lia. }
  exists (firstn k perm), rows.
  assert (Hpos : sample_positions (List.length df)
                   (Z.min sample_size (Z.of_nat (List.length df)))
                   (random_state self) = Ok (firstn k perm)).
  { rewrite sample_positions_in_range by lia. reflexivity. }
  assert (Hsel : sampled_rows self df sample_size = Ok rows).
  { unfold sampled_rows, df_sample. rewrite Hpos. cbn [bind]. exact Htake. }
  pose proof (take_length df _ _ Htake) as Hrows.
  split; [exact Hpos|]. split; [exact Hsel|]. split.
  - rewrite <- (Forall2_length Hrows), length_firstn. lia.
  - split; [now apply NoDup_firstn | exact Hrows].
Qed.

Lemma sampled_rows_without_replacement_witness :
  exists positions rows,
    sample_positions (G := Pile.sampling) 3 (Z.min 2 3) 3 = Ok positions /\
    sampled_rows (G := Pile.sampling) (mkSampler 3)
      [(10, Pile.row "a" "ooo" ""); (11, Pile.row "b" "" "");
       (12, Pile.row "c" "o" "")] 2 = Ok rows /\
    List.length rows = Nat.min (Z.to_nat 2) 3 /\
    NoDup positions /\
    Forall2 (fun p row =>
               nth_error [(10, Pile.row "a" "ooo" "");
                          (11, Pile.row "b" "" "");
                          (12, Pile.row "c" "o" "")] p = Some row)
            positions rows.
Proof.
  apply (sampled_rows_without_replacement Pile.sampling (mkSampler 3)
           [(10, Pile.row "a" "ooo" ""); (11, Pile.row "b" "" "");
            (12, Pile.row "c" "o" "")] 2).
  - apply (Pile_shuffle_perm 3 3).
  - lia.
Defined.

(** X10.  A negative requested size is not clamped to zero: the
    selection raises [ValueError], outside the handler of the loop, so
    [create_sample] raises it for every frame. *)
Theorem create_sample_negative_size
    (E : PositionEngine) (G : Sampling) (self : BaseSampler)
    (df : DataFrame) (sample_size : Z) (g : RandomState) :
  (sample_size < 0)%Z ->
  fst (create_sample self df sample_size g) = Raise ValueError.
Proof.
  intro Hneg.
  unfold create_sample, sampled_rows, df_sample, sample_positions.
  cbn [fst].
  destruct (Z.ltb_spec (Z.min sample_size (Z.of_nat (List.length df))) 0);
    [reflexivity | lia].
Qed.

Lemma create_sample_negative_size_witness :
  fst (create_sample (E := Pile.engine) (G := Pile.sampling) (mkSampler 42)
         [(0, Pile.row "a" "ooo" "")] (-1) 0%Z) = Raise ValueError.
Proof.
  apply (create_sample_negative_size Pile.engine Pile.sampling
           (mkSampler 42) [(0, Pile.row "a" "ooo" "")] (-1) 0%Z).
  lia.
Defined.

(** X11.  Whatever the generator does, [create_sample] never returns
    more examples than were requested, nor more than the frame has
    rows. *)
Theorem create_sample_at_most_requested
    (E : PositionEngine) (G : Sampling) (self : BaseSampler)
    (df : DataFrame) (sample_size : Z) (g : RandomState)
    (exs : list Example) :
  fst (create_sample self df sample_size g) = Ok exs ->
  (Z.of_nat (List.length exs) <= sample_size)%Z /\
  List.length exs <= List.length df.
Proof.
  unfold create_sample, sampled_rows, df_sample, sample_positions.
  cbn [fst].
  destruct (Z.ltb_spec (Z.min sample_size (Z.of_nat (List.length df))) 0)
    as [Hneg|Hpos]; [discriminate|].
  destruct (Z.ltb_spec (Z.of_nat (List.length df))
                       (Z.min sample_size (Z.of_nat (List.length df))))
    as [Hover|Hfit]; [discriminate|].
  cbn [bind].
  destruct (take df _) as [rows|x] eqn:Htake; [|discriminate].
  cbn [bind]. intros [= <-].
  pose proof (Forall2_length (take_length df _ _ Htake)) as Hlen.
  rewrite length_firstn in Hlen.
  pose proof (examples_of_rows_length rows) as Hle.
  lia.
Qed.

Lemma create_sample_at_most_requested_witness :
  exists exs,
    fst (create_sample (E := Pile.engine) (G := Pile.sampling) (mkSampler 42)
           [(0, Pile.row "a" "ooo" ""); (1, Pile.row "b" "oo" "");
            (2, Pile.row "c" "o" "")] 2 0%Z) = Ok exs /\
    (Z.of_nat (List.length exs) <= 2)%Z /\
    List.length exs <= 3.
Proof.
  eexists. split; [reflexivity|].
  apply (create_sample_at_most_requested Pile.engine Pile.sampling
           (mkSampler 42)
           [(0, Pile.row "a" "ooo" ""); (1, Pile.row "b" "oo" "");
            (2, Pile.row "c" "o" "")] 2 0%Z _ eq_refl).
Defined.

(** X12.  When every selected row has a position the engine accepts
    with at least one legal move, the loop of [create_sample] yields
    exactly one example per row, in the order of the selection, showing
    the row's id, its stored position and its stored expected move;
    that move is copied without being looked up among the legal moves. *)
Theorem examples_of_rows_one_per_row
    (E : PositionEngine) (rows : DataFrame) :
  Forall (fun ir => exists board : Board,
              chess_Board (puzzle_fen (snd ir)) = Some board /\
              legal_moves board <> []) rows ->
  map puzzle_id (examples_of_rows rows)
  = map (fun ir => PuzzleId (snd ir)) rows /\
  map puzzle (examples_of_rows rows)
  = map (fun ir => puzzle_fen (snd ir)) rows /\
  map expected_move (examples_of_rows rows)
  = map (fun ir => row_expected_move (snd ir)) rows.
Proof.
  induction 1 as [|[idx row] rows (board & Hboard & Hmoves) _ IH].
  - repeat split.
  - destruct IH as (Hid & Hp & He).
    cbn [examples_of_rows map snd]. unfold row_example.
    cbn [snd] in Hboard. rewrite Hboard.
    destruct (legal_moves board) as [|mv mvs]; [congruence|].
    cbn [enumerate enumerate_from map puzzle_id puzzle expected_move].
    now rewrite Hid, Hp, He.
Qed.

Lemma examples_of_rows_one_per_row_witness :
  map puzzle_id (examples_of_rows (E := Pile.engine)
                   [(5, Pile.row "a" "ooo" ""); (3, Pile.row "b" "o " "")])
  = ["a"; "b"] /\
  map puzzle (examples_of_rows (E := Pile.engine)
                [(5, Pile.row "a" "ooo" ""); (3, Pile.row "b" "o " "")])
  = ["ooo"; "o "] /\
  map expected_move (examples_of_rows (E := Pile.engine)
                       [(5, Pile.row "a" "ooo" ""); (3, Pile.row "b" "o " "")])
  = ["t1"; "t1"].
Proof.
  apply (examples_of_rows_one_per_row Pile.engine
           [(5, Pile.row "a" "ooo" ""); (3, Pile.row "b" "o " "")]).
  repeat constructor.
  - exists 3. split; [reflexivity | discriminate].
  - exists 1. split; [reflexivity | discriminate].
Defined.

(** * Further properties of the distribution report *)

(** X13.  The sample side of the report counts examples, not puzzles:
    over the output of [_create_examples_from_df] every entry of the
    report has, as population count, the number of rows of the
    population and, as sample count, the total number of solution moves
    of the assembled frame, a puzzle weighing once per ply. *)
Theorem analyze_distribution_counts_plies
    (E : PositionEngine) (df population_df : DataFrame)
    (cgs : option (list string)) (exs : list Example) (rep : Report)
    (name : string) (pop_stats sample_stats : Stats) :
  _create_examples_from_df df cgs = Ok exs ->
  analyze_distribution population_df exs = Ok rep ->
  report_lookup name rep = Some (pop_stats, sample_stats) ->
  st_count pop_stats = List.length population_df /\
  st_count sample_stats
  = list_sum (map (fun ir => List.length (split (Moves (snd ir)))) df).
Proof.
  intros Hrun Hrep Hlook.
  destruct (assembled_shape E df cgs exs Hrun) as (_ & _ & Hlen).
  rewrite <- Hlen. clear Hrun Hlen.
  destruct exs as [|ex exs]; [discriminate Hrep|].
  destruct (analyze_distribution_some population_df ex exs) as [Hsome _].
  rewrite Hsome in Hrep. injection Hrep as <-.
  cbn [report_lookup] in Hlook.
  destruct (String.eqb "rating_stats" name).
  - injection Hlook as <- <-. unfold describe. cbn [st_count].
    split; [apply length_map|]. cbn [List.length]. f_equal.
    apply length_map.
  - destruct (String.eqb "popularity_stats" name); [|discriminate].
    injection Hlook as <- <-. unfold describe. cbn [st_count].
    split; [apply length_map|]. cbn [List.length]. f_equal.
    apply length_map.
Qed.

Lemma analyze_distribution_counts_plies_witness :
  exists pop_stats sample_stats,
    report_lookup "popularity_stats"
      [("rating_stats", (describe [1500; 1500]%Z, describe [1500; 1500; 1500]%Z));
       ("popularity_stats", (describe [90; 90]%Z, describe [90; 90; 90]%Z))]
    = Some (pop_stats, sample_stats) /\
    st_count pop_stats = 2 /\
    st_count sample_stats = 3.
Proof.
  eexists. eexists. split; [reflexivity|].
  eapply (analyze_distribution_counts_plies Pile.engine
            [(0, Pile.row "a" "ooo" "t2 t1"); (1, Pile.row "c" "oo" "t1")]
            [(0, Pile.row "a" "ooo" "t2 t1"); (1, Pile.row "c" "oo" "t1")]
            None _ _ "popularity_stats").
  - reflexivity.
  - reflexivity.
  - reflexivity.
Defined.

(** X14.  The report is a function of four columns only: two calls
    whose populations agree on [Rating] and [Popularity] and whose
    samples agree on the rating and popularity of the metadata return
    the same report, or raise alike, whatever else differs (rating
    deviation, themes, ids, positions, moves). *)
Theorem analyze_distribution_reads_two_columns
    (pop pop' : DataFrame) (exs exs' : list Example) :
  map (fun ir => Rating (snd ir)) pop = map (fun ir => Rating (snd ir)) pop' ->
  map (fun ir => Popularity (snd ir)) pop
  = map (fun ir => Popularity (snd ir)) pop' ->
  map (fun e => rating (metadata e)) exs
  = map (fun e => rating (metadata e)) exs' ->
  map (fun e => popularity (metadata e)) exs
  = map (fun e => popularity (metadata e)) exs' ->
  analyze_distribution pop exs = analyze_distribution pop' exs'.
Proof.
  intros Hr Hp Hsr Hsp.
  destruct exs as [|ex exs], exs' as [|ex' exs']; try discriminate Hsr.
  - reflexivity.
  - destruct (analyze_distribution_some pop ex exs) as [-> _].
    destruct (analyze_distribution_some pop' ex' exs') as [-> _].
    now rewrite Hr, Hp, Hsr, Hsp.
Qed.

Lemma analyze_distribution_reads_two_columns_witness :
  analyze_distribution
    [(0, Pile.rated "a" "ooo" 1500 80 90); (1, Pile.rated "b" "oo" 1700 60 70)]
    (examples_of_rows (E := Pile.engine)
       [(1, Pile.rated "b" "oo" 1700 60 70)])
  = analyze_distribution
      [(4, Pile.rated "x" "o" 1500 500 90); (9, Pile.rated "y" "" 1700 5 70)]
      (examples_of_rows (E := Pile.engine)
         [(9, Pile.rated "z" "ooo" 1700 5 70)]).
Proof.
  apply (analyze_distribution_reads_two_columns
           [(0, Pile.rated "a" "ooo" 1500 80 90);
            (1, Pile.rated "b" "oo" 1700 60 70)]
           [(4, Pile.rated "x" "o" 1500 500 90);
            (9, Pile.rated "y" "" 1700 5 70)]
           (examples_of_rows (E := Pile.engine)
              [(1, Pile.rated "b" "oo" 1700 60 70)])
           (examples_of_rows (E := Pile.engine)
              [(9, Pile.rated "z" "ooo" 1700 5 70)])).
  - reflexivity.
  - reflexivity.
  - reflexivity.
  - reflexivity.
Defined.

(** * The stored development set *)

Section DictFacts.

Lemma dict_set_keys_present (k v : string) (d : list (string * string)) :
  In k (map fst d) -> map fst (dict_set k v d) = map fst d.
Proof.
  induction d as [|[k' v'] d IH]; [intros []|].
  intro Hin. cbn [dict_set].
  destruct (String.eqb_spec k' k) as [->|Hne]; [reflexivity|].
  cbn [map fst]. f_equal. apply IH.
  destruct Hin as [Heq|Hin]; [contradiction | exact Hin].
Qed.

Lemma dict_set_fresh (k v : string) (d : list (string * string)) :
  ~ In k (map fst d) -> dict_set k v d = d ++ [(k, v)].
Proof.
  induction d as [|[k' v'] d IH]; intro Hnot; [reflexivity|].
  cbn [dict_set]. destruct (String.eqb_spec k' k) as [->|Hne].
  - exfalso. apply Hnot. now left.
  - cbn [app]. f_equal. apply IH. intro Hin. apply Hnot. now right.
Qed.

Lemma dict_set_NoDup (k v : string) (d : list (string * string)) :
  NoDup (map fst d) -> NoDup (map fst (dict_set k v d)).
Proof.
  intro Hnd.
  destruct (in_dec string_dec k (map fst d)) as [Hin|Hnot].
  - now rewrite dict_set_keys_present.
  - rewrite dict_set_fresh, map_app by exact Hnot. cbn [map fst].
    apply (Permutation_NoDup (Permutation_cons_append (map fst d) k)).
    now constructor.
Qed.

(** A dict built by assignments has no key twice. *)
Lemma string_keyed_NoDup (items : list (key * string)) :
  NoDup (map fst (string_keyed items)).
Proof.
  unfold string_keyed.
  assert (H : forall acc : list (string * string),
             NoDup (map fst acc) ->
             NoDup (map fst (fold_left
                               (fun d kv =>
                                  dict_set (key_str (fst kv)) (snd kv) d)
                               items acc))).
  { induction items as [|kv items IH]; intros acc Hacc; [exact Hacc|].
    cbn [fold_left]. apply IH. now apply dict_set_NoDup. }
  apply H. constructor.
Qed.

(** When the keys stay distinct as text nothing is overwritten. *)
Lemma string_keyed_distinct (items : list (key * string)) :
  NoDup (map (fun kv => key_str (fst kv)) items) ->
  string_keyed items = map (fun kv => (key_str (fst kv), snd kv)) items.
Proof.
  unfold string_keyed.
  assert (H : forall acc : list (string * string),
             NoDup (map fst acc ++ map (fun kv => key_str (fst kv)) items) ->
             fold_left (fun d kv => dict_set (key_str (fst kv)) (snd kv) d)
                       items acc
             = acc ++ map (fun kv => (key_str (fst kv), snd kv)) items).
  { induction items as [|kv items IH]; intros acc Hnd.
    - cbn. now rewrite app_nil_r.
    - cbn [fold_left map].
      assert (Hfresh : ~ In (key_str (fst kv)) (map fst acc)).
      { intro Hin. cbn [map] in Hnd.
        apply NoDup_remove_2 in Hnd. apply Hnd, in_or_app. now left. }
      rewrite dict_set_fresh by exact Hfresh.
      rewrite IH.
      + now rewrite <- app_assoc.
      + rewrite map_app. cbn [map fst]. rewrite <- app_assoc. exact Hnd. }
  intro Hnd. apply (H []). exact Hnd.
Qed.

End DictFacts.

Section LoaderFacts.

Variable py_eval_items : string -> option (list (key * string)).

Lemma dev_examples_returned (rows : list DevRow) (exs : list Example) :
  dev_examples py_eval_items rows = Returned exs ->
  Forall2 (fun row e => dev_example py_eval_items row = Some e) rows exs.
Proof.
  revert exs. induction rows as [|row rows IH]; intros exs Hrun.
  - simpl in Hrun. injection Hrun as <-. constructor.
  - cbn [dev_examples] in Hrun.
    destruct (dev_example py_eval_items row) as [e|] eqn:Hrow;
      [|discriminate].
    destruct (dev_examples py_eval_items rows) as [exs'|x]; [|discriminate].
    injection Hrun as <-. constructor; [exact Hrow | now apply IH].
Qed.

Lemma dev_examples_raised (rows : list DevRow) (x : load_exn) :
  dev_examples py_eval_items rows = Raised x ->
  x = EvalRaised /\
  exists row, In row rows /\ py_eval_items (d_possible_moves row) = None.
Proof.
  induction rows as [|row rows IH]; intro Hrun; [discriminate Hrun|].
  cbn [dev_examples] in Hrun.
  destruct (dev_example py_eval_items row) as [e|] eqn:Hrow.
  - destruct (dev_examples py_eval_items rows) as [exs'|y]; [discriminate|].
    injection Hrun as ->. destruct (IH eq_refl) as (Hx & row' & Hin & Hnone).
    split; [exact Hx|]. exists row'. split; [now right | exact Hnone].
  - injection Hrun as <-. split; [reflexivity|].
    exists row. split; [now left|].
    unfold dev_example in Hrow.
    now destruct (py_eval_items (d_possible_moves row)).
Qed.

Lemma dev_example_fields (row : DevRow) (e : Example) :
  dev_example py_eval_items row = Some e ->
  puzzle_id e = d_puzzle_id row /\
  puzzle e = d_puzzle row /\
  expected_move e = d_expected_move row /\
  NoDup (map fst (possible_moves e)) /\
  Forall (fun k => exists s, k = KStr s) (map fst (possible_moves e)).
Proof.
  unfold dev_example.
  destruct (py_eval_items (d_possible_moves row)) as [items|]; [|discriminate].
  intros [= <-]. cbn [puzzle_id puzzle expected_move possible_moves].
  repeat split.
  - rewrite map_map. cbn [fst].
    rewrite <- (map_map fst KStr).
    apply NoDup_map_inj; [|apply string_keyed_NoDup].
    now intros a b [= ->].
  - rewrite map_map. cbn [fst]. apply Forall_forall.
    intros k Hin. apply in_map_iff in Hin as (kv & <- & _). now eexists.
Qed.

End LoaderFacts.

(** X15.  What [load_devset] can do, exhaustively: without the file it
    raises [FileNotFoundError]; with a frame without rows it raises for
    want of examples; when the mapping of some row does not evaluate the
    whole load fails; otherwise it returns a non-empty list with one
    example per row, in the order of the rows, showing each row's id,
    position and expected move. *)
Theorem load_devset_outcomes
    (py_eval_items : string -> option (list (key * string)))
    (path_exists : bool) (devset_df : list DevRow) :
  (path_exists = false /\
   load_devset py_eval_items path_exists devset_df
   = Raised FileNotFoundError) \/
  (path_exists = true /\ devset_df = [] /\
   load_devset py_eval_items path_exists devset_df
   = Raised NoExamplesFound) \/
  (path_exists = true /\
   (exists row, In row devset_df /\
                py_eval_items (d_possible_moves row) = None) /\
   load_devset py_eval_items path_exists devset_df = Raised EvalRaised) \/
  (path_exists = true /\
   exists exs,
     load_devset py_eval_items path_exists devset_df = Returned exs /\
     exs <> [] /\
     map puzzle_id exs = map d_puzzle_id devset_df /\
     map puzzle exs = map d_puzzle devset_df /\
     map expected_move exs = map d_expected_move devset_df).
Proof.
  unfold load_devset. destruct path_exists; cbn [negb]; [right | now left].
  destruct (dev_examples py_eval_items devset_df) as [exs|x] eqn:Hrun.
  - pose proof (dev_examples_returned py_eval_items _ _ Hrun) as Hall.
    destruct exs as [|e exs].
    + left. inversion Hall. repeat split.
    + right. right. split; [reflexivity|].
      exists (e :: exs). split; [reflexivity|]. split; [discriminate|].
      clear Hrun. induction Hall as [|row e' rows exs' Hrow _ IH].
      * repeat split.
      * destruct IH as (Hid & Hp & He).
        destruct (dev_example_fields py_eval_items row e' Hrow)
          as (Hid1 & Hp1 & He1 & _).
        cbn [map]. now rewrite Hid, Hp, He, Hid1, Hp1, He1.
  - right. left.
    destruct (dev_examples_raised py_eval_items _ _ Hrun) as (-> & Hrow).
    repeat split. exact Hrow.
Qed.

(** X16.  In every example [load_devset] returns, the keys of
    [possible_moves] are strings and pairwise distinct, whatever keys
    the stored mapping had. *)
Theorem load_devset_string_keys
    (py_eval_items : string -> option (list (key * string)))
    (path_exists : bool) (devset_df : list DevRow) (exs : list Example) :
  load_devset py_eval_items path_exists devset_df = Returned exs ->
  Forall (fun e =>
            NoDup (map fst (possible_moves e)) /\
            Forall (fun k => exists s, k = KStr s)
                   (map fst (possible_moves e))) exs.
Proof.
  unfold load_devset. destruct path_exists; cbn [negb]; [|discriminate].
  destruct (dev_examples py_eval_items devset_df) as [exs'|x] eqn:Hrun;
    [|discriminate].
  pose proof (dev_examples_returned py_eval_items _ _ Hrun) as Hall.
  destruct exs' as [|e exs']; [discriminate|]. intros [= <-].
  clear Hrun. induction Hall as [|row e' rows exs0 Hrow _ IH]; constructor.
  - destruct (dev_example_fields py_eval_items row e' Hrow)
      as (_ & _ & _ & Hnd & Hstr).
    split; assumption.
  - exact IH.
Qed.

Lemma load_devset_string_keys_witness :
  exists exs,
    load_devset
      (fun _ => Some [(KInt 1, "t1"); (KStr "1", "t2"); (KInt 0, "t3")])
      true [mkDevRow "ooo" "{1: 't1', '1': 't2', 0: 't3'}" "1" "a"
                     1500 90 80 "short" "oooo" "t1"]
    = Returned exs /\
    Forall (fun e =>
              NoDup (map fst (possible_moves e)) /\
              Forall (fun k => exists s, k = KStr s)
                     (map fst (possible_moves e))) exs.
Proof.
  eexists. split; [reflexivity|].
  apply (load_devset_string_keys
           (fun _ => Some [(KInt 1, "t1"); (KStr "1", "t2"); (KInt 0, "t3")])
           true
           [mkDevRow "ooo" "{1: 't1', '1': 't2', 0: 't3'}" "1" "a"
                     1500 90 80 "short" "oooo" "t1"] _ eq_refl).
Defined.

(** X17.  Storing and loading an example of the single-ply sampler
    gives it back: when a row holds the fields of an example made by
    [create_sample] and its mapping text evaluates to that example's
    mapping, the loader rebuilds the very same example. *)
Theorem dev_example_restores_sample
    (E : PositionEngine)
    (py_eval_items : string -> option (list (key * string)))
    (row : Row) (e : Example) (stored : DevRow) :
  row_example row = Some e ->
  stores stored e ->
  py_eval_items (d_possible_moves stored) = Some (possible_moves e) ->
  dev_example py_eval_items stored = Some e.
Proof.
  intros Hrow Hst Heval.
  destruct (row_example_keys row e Hrow) as (board & _ & _ & Hk & _).
  assert (Hkeys : map (fun kv => key_str (fst kv)) (possible_moves e)
                  = map str (seq 0 (List.length (legal_moves board)))).
  { rewrite <- (map_map fst key_str), Hk, map_map. reflexivity. }
  assert (Hsame : map (fun kv => (KStr (fst kv), snd kv))
                      (string_keyed (possible_moves e))
                  = possible_moves e).
  { rewrite string_keyed_distinct.
    - rewrite map_map. cbn [fst snd].
      rewrite <- (map_id (possible_moves e)) at 2.
      apply map_ext_in. intros [k v] Hin. cbn [fst snd].
      assert (Hkin : In k (map fst (possible_moves e)))
        by (apply in_map_iff; exists (k, v); auto).
      rewrite Hk in Hkin. apply in_map_iff in Hkin as (i & <- & _).
      reflexivity.
    - rewrite Hkeys. apply NoDup_map_inj; [exact str_inj | apply seq_NoDup]. }
  unfold dev_example. rewrite Heval, Hsame.
  destruct Hst as (H1 & H2 & H3 & H4 & H5 & H6 & H7 & H8 & H9).
  unfold row_example in Hrow.
  destruct (chess_Board (puzzle_fen row)); [|discriminate].
  destruct (map _ (enumerate (legal_moves b))); [discriminate|].
  injection Hrow as <-. cbn in *.
  rewrite H1, H2, H3, H4, H5, H6, H7, H8.
  injection H9 as ->. reflexivity.
Qed.

Lemma dev_example_restores_sample_witness :
  dev_example
    (fun _ => Some [(KStr "0", "t1"); (KStr "1", "t2")])
    (mkDevRow "ooo" "{'0': 't1', '1': 't2'}" "t1" "a"
              1500 90 80 "short" "ooo" "t2")
  = row_example (E := Pile.engine) (Pile.row "a" "ooo" "").
Proof.
  apply (dev_example_restores_sample Pile.engine
           (fun _ => Some [(KStr "0", "t1"); (KStr "1", "t2")])
           (Pile.row "a" "ooo" "") _
           (mkDevRow "ooo" "{'0': 't1', '1': 't2'}" "t1" "a"
                     1500 90 80 "short" "ooo" "t2")).
  - reflexivity.
  - repeat split.
  - reflexivity.
Defined.

Lemma pairs_eq {A B : Type} (l l' : list (A * B)) :
  map fst l = map fst l' -> map snd l = map snd l' -> l = l'.
Proof.
  revert l'. induction l as [|[a b] l IH]; intros [|[a' b'] l'] Hf Hs;
    try discriminate; [reflexivity|].
  cbn in Hf, Hs. injection Hf as -> Hf. injection Hs as -> Hs.
  f_equal. now apply IH.
Qed.

(** X18.  Loading a stored example of the multi-ply builder turns its
    integer keys into their decimal text without losing an entry: the
    loaded mapping has the keys "0", ..., str(M-1) in order and the same
    values, which is the mapping the single-ply sampler makes for the
    same board. *)
Theorem dev_example_renames_integer_keys
    (E : PositionEngine)
    (py_eval_items : string -> option (list (key * string)))
    (r : Row) (cg : option string) (exs : list Example) (e : Example)
    (stored : DevRow) :
  _create_dspy_example r cg = Ok (Some exs) ->
  In e exs ->
  py_eval_items (d_possible_moves stored) = Some (possible_moves e) ->
  exists (loaded : Example) (board : Board),
    dev_example py_eval_items stored = Some loaded /\
    puzzle e = fen board /\
    possible_moves loaded
    = map (fun im => (KStr (str (fst im)), uci (snd im)))
          (enumerate (legal_moves board)).
Proof.
  intros Hrun Hin Heval.
  unfold _create_dspy_example in Hrun.
  destruct (split (Moves r)) as [|m rest]; [discriminate|].
  destruct (chess_Board (FEN r)) as [board0|]; [|discriminate].
  destruct (replay r (puzzle_metadata r (m :: rest) cg)
                   (List.length (m :: rest)) board0 0 (m :: rest))
    as [exs'|x] eqn:Hreplay; [|discriminate].
  cbn [bind] in Hrun. injection Hrun as <-.
  pose proof (replay_keys r _ _ _ _ _ _ Hreplay) as Hall.
  rewrite Forall_forall in Hall.
  destruct (Hall e Hin) as (board & Hp & Hk & Hv).
  assert (Hpm : possible_moves e
                = map (fun im => (KInt (fst im), uci (snd im)))
                      (enumerate (legal_moves board))).
  { apply pairs_eq.
    - rewrite Hk. symmetry. apply (keyed_fst KInt uci).
    - rewrite Hv. symmetry. apply (keyed_snd KInt uci). }
  exists {| puzzle := d_puzzle stored;
            possible_moves :=
              map (fun kv => (KStr (fst kv), snd kv))
                  (string_keyed (possible_moves e));
            expected_move := d_expected_move stored;
            puzzle_id := d_puzzle_id stored;
            metadata :=
              {| rating := d_rating stored;
                 popularity := d_popularity stored;
                 rating_deviation := d_rating_deviation stored;
                 themes := d_themes stored;
                 moves := None;
                 initial_fen := d_initial_fen stored;
                 opponent_move := Some (d_opponent_move stored);
                 control_group := None |};
            move_index := None |}, board.
  split; [unfold dev_example; now rewrite Heval|].
  split; [exact Hp|]. cbn [possible_moves].
  rewrite string_keyed_distinct.
  - rewrite Hpm, !map_map. reflexivity.
  - rewrite Hpm, map_map. cbn [fst key_str].
    rewrite <- (map_map fst str). unfold enumerate.
    rewrite enumerate_from_fst.
    apply NoDup_map_inj; [exact str_inj | apply seq_NoDup].
Qed.

Lemma dev_example_renames_integer_keys_witness :
  exists loaded board,
    dev_example
      (fun _ => Some [(KInt 0, "t1"); (KInt 1, "t2")])
      (mkDevRow "ooo" "{0: 't1', 1: 't2'}" "t2" "p1"
                1500 90 80 "short" "ooo" "") = Some loaded /\
    "ooo" = fen (PositionEngine := Pile.engine) board /\
    possible_moves loaded
    = map (fun im => (KStr (str (fst im)), uci (snd im)))
          (enumerate (legal_moves (PositionEngine := Pile.engine) board)).
Proof.
  destruct (dev_example_renames_integer_keys Pile.engine
              (fun _ => Some [(KInt 0, "t1"); (KInt 1, "t2")])
              (Pile.row "p1" "ooo" "t2 t1") None _ _
              (mkDevRow "ooo" "{0: 't1', 1: 't2'}" "t2" "p1"
                        1500 90 80 "short" "ooo" "")
              eq_refl (or_introl eq_refl) eq_refl)
    as (loaded & board & H1 & H2 & H3).
  exists loaded, board. split; [exact H1|]. split; [exact H2 | exact H3].
Defined.

(** * The metric and the result table *)

Lemma scan_step_rejects (st : scan) (c : ascii) :
  literal_char c = false -> scan_step st c = None.
Proof.
  unfold literal_char.
  destruct (int_space c) eqn:Hs; [discriminate|].
  destruct (Ascii.eqb c "+") eqn:Hp; [discriminate|].
  destruct (Ascii.eqb c "-") eqn:Hm; [discriminate|].
  destruct (Ascii.eqb c "_") eqn:Hu; [discriminate|].
  destruct (digit_value c) eqn:Hd; [discriminate|]. intros _.
  destruct st; cbn [scan_step]; unfold more_digits;
    rewrite ?Hs, ?Hp, ?Hm, ?Hu, ?Hd; reflexivity.
Qed.

Lemma scan_from_rejects (s : string) :
  forall (st : scan) (c : ascii),
    In c (list_ascii_of_string s) ->
    literal_char c = false ->
    scan_from st s = None.
Proof.
  induction s as [|a s IH]; intros st c Hin Hbad; [destruct Hin|].
  cbn [scan_from]. destruct Hin as [->|Hin].
  - now rewrite scan_step_rejects.
  - destruct (scan_step st a); [|reflexivity]. now apply (IH _ c).
Qed.

(** X19.  [validate_move] converts the expected move with [int]: when
    the expected move contains a character that cannot occur in a
    decimal literal, as a move in coordinate notation such as e2e4
    does, the metric returns no verdict for any prediction; it raises,
    and raises [ValueError] whenever the prediction itself converts. *)
Theorem validate_move_rejects_move_text
    (example : Example) (pred : Prediction) (c : ascii) :
  In c (list_ascii_of_string (expected_move example)) ->
  literal_char c = false ->
  exists x,
    validate_move example pred = Raised x /\
    (forall z, int_of_move pred = Returned z -> x = MetricValueError).
Proof.
  intros Hin Hbad.
  assert (Hnone : py_int (expected_move example) = None).
  { unfold py_int. now rewrite (scan_from_rejects _ Leading c Hin Hbad). }
  unfold validate_move. rewrite Hnone.
  destruct (int_of_move pred) as [z|x].
  - exists MetricValueError. split; [reflexivity | reflexivity].
  - exists x. split; [reflexivity | discriminate].
Qed.

Lemma validate_move_rejects_move_text_witness :
  exists x,
    validate_move
      (mkExample "ooo" [(KStr "0", "e2e4")] "e2e4" "a"
                 (mkMetadata 1500 90 80 "short" None "ooo" None None) None)
      (mkPrediction (Some (PInt 0))) = Raised x /\
    (forall z, int_of_move (mkPrediction (Some (PInt 0))) = Returned z ->
               x = MetricValueError).
Proof.
  apply (validate_move_rejects_move_text
           (mkExample "ooo" [(KStr "0", "e2e4")] "e2e4" "a"
                      (mkMetadata 1500 90 80 "short" None "ooo" None None)
                      None)
           (mkPrediction (Some (PInt 0))) "e"%char).
  - left. reflexivity.
  - reflexivity.
Defined.

Lemma flags_below {A : Type} (k : nat) (l : list A) :
  forall i : nat,
    map snd (filter (fun iflag => Nat.ltb (fst iflag) k) (enumerate_from i l))
    = firstn (k - i) l.
Proof.
  induction l as [|x l IH]; intro i.
  - now rewrite firstn_nil.
  - cbn [enumerate_from filter fst].
    destruct (Nat.ltb_spec i k) as [Hlt|Hge].
    + cbn [map snd]. rewrite IH.
      replace (k - i) with (S (k - S i)) by lia. reflexivity.
    + rewrite IH. replace (k - S i) with 0 by lia.
      replace (k - i) with 0 by lia. reflexivity.
Qed.

Lemma collect_predictions_length (outputs : list (Example * Prediction)) :
  List.length (collect_predictions outputs) <= List.length outputs.
Proof.
  induction outputs as [|[example pred] outputs IH]; [simpl; lia|].
  cbn [collect_predictions]. destruct (pred_move pred); simpl; lia.
Qed.

(** X20.  In the logged table the three columns taken from the
    predictions have the same length k, the number of predictions that
    have a [move]; the column of verdicts is the first k scores,
    whichever predictions were skipped, so with one score per output all
    four columns have the same length. *)
Theorem result_table_columns
    (outputs : list (Example * Prediction)) (all_scores : list bool) :
  List.length (PuzzleFEN (result_table outputs all_scores))
  = List.length (PredictedMove (result_table outputs all_scores)) /\
  List.length (ExpectedMove (result_table outputs all_scores))
  = List.length (PredictedMove (result_table outputs all_scores)) /\
  List.length (PredictedMove (result_table outputs all_scores))
  <= List.length outputs /\
  Correct (result_table outputs all_scores)
  = firstn (List.length (PredictedMove (result_table outputs all_scores)))
           all_scores /\
  (List.length all_scores = List.length outputs ->
   List.length (Correct (result_table outputs all_scores))
   = List.length (PredictedMove (result_table outputs all_scores))).
Proof.
  unfold result_table.
  cbn [PuzzleFEN ExpectedMove PredictedMove Correct].
  rewrite !length_map.
  pose proof (collect_predictions_length outputs) as Hle.
  assert (Hflags : correct_flags all_scores
                     (List.length (collect_predictions outputs))
                   = firstn (List.length (collect_predictions outputs))
                            all_scores).
  { unfold correct_flags, enumerate. rewrite flags_below.
    now rewrite Nat.sub_0_r. }
  repeat split; try assumption.
  intro Hlen. rewrite Hflags, length_firstn. lia.
Qed.

Lemma result_table_columns_witness :
  List.length
    (Correct
       (result_table
          [(mkExample "f1" [] "1" "a"
                      (mkMetadata 0 0 0 "" None "" None None) None,
            mkPrediction None);
           (mkExample "f2" [] "2" "b"
                      (mkMetadata 0 0 0 "" None "" None None) None,
            mkPrediction (Some (PInt 2)))]
          [false; true]))
  = List.length
      (PredictedMove
         (result_table
            [(mkExample "f1" [] "1" "a"
                        (mkMetadata 0 0 0 "" None "" None None) None,
              mkPrediction None);
             (mkExample "f2" [] "2" "b"
                        (mkMetadata 0 0 0 "" None "" None None) None,
              mkPrediction (Some (PInt 2)))]
            [false; true])).
Proof.
  apply (result_table_columns
           [(mkExample "f1" [] "1" "a"
                       (mkMetadata 0 0 0 "" None "" None None) None,
             mkPrediction None);
            (mkExample "f2" [] "2" "b"
                       (mkMetadata 0 0 0 "" None "" None None) None,
             mkPrediction (Some (PInt 2)))]
           [false; true]).
  reflexivity.
Defined.
